(** * Spinnaker release tooling: the Debian build command and the GCS
      pub/sub trigger status

    A shallow embedding of

    - [dev/buildtool/debian_commands.py]: [BuildDebianCommand], which runs
      one gradle build per repository under a [threading.Semaphore];
    - [testing/citest/spinnaker_testing/gcs_pubsub_trigger_agent.py]:
      [GcsPubsubTriggerOperationStatus], the poll-until-done status object.

    Python objects are records, attribute writes are explicit record
    updates, exceptions are the [Raise] branch of [result], and the
    collaborators whose code lives in other packages (the gradle runner,
    the base classes, the HTTP agent, the delegate status class) are
    records of functions that every theorem quantifies over. *)

From Stdlib Require Import ZArith Bool Ascii String Lia.
From stdpp Require Import base option list gmap strings.

Open Scope string_scope.
Open Scope list_scope.
Open Scope Z_scope.

(** ** Python runtime: exceptions, truthiness, paths, semaphores *)

Module Py.

(** The exception classes that can leave the modelled code. [ConfigError]
    is buildtool's own; [ValueError] is raised by [threading.Semaphore];
    [OtherError] stands for whatever a collaborator raises. *)
Inductive exn : Type :=
| ConfigError (message : string)
| ValueError (message : string)
| OtherError (tag : string).

Inductive result (A : Type) : Type :=
| Ok (a : A)
| Raise (e : exn).
Arguments Ok {A} a.
Arguments Raise {A} e.

(** [bool(s)] for a [str]. *)
Definition str_truthy (s : string) : bool :=
  match s with EmptyString => false | String _ _ => true end.

(** [bool(x)] for an [Optional[str]] such as [os.environ.get(k)]. *)
Definition opt_truthy (o : option string) : bool :=
  match o with Some s => str_truthy s | None => false end.

(** [posixpath.join]. *)
Definition starts_with_slash (s : string) : bool :=
  match s with String "/"%char _ => true | _ => false end.

Fixpoint ends_with_slash (s : string) : bool :=
  match s with
  | EmptyString => false
  | String c EmptyString => Ascii.eqb c "/"%char
  | String _ rest => ends_with_slash rest
  end.

Definition join_step (path b : string) : string :=
  if starts_with_slash b then b
  else if negb (str_truthy path) || ends_with_slash path then path +:+ b
  else path +:+ "/" +:+ b.

Definition os_path_join (a : string) (p : list string) : string :=
  foldl join_step a p.

(** [threading.Semaphore]: a counter that never goes below zero. *)
Record Semaphore : Type := { _value : Z }.

(** [Semaphore(value)] *)
Definition Semaphore_new (value : Z) : result Semaphore :=
  if value <? 0 then Raise (ValueError "semaphore initial value must be >= 0")
  else Ok {| _value := value |}.

(** [acquire()] with the default [blocking=True]: [None] means that the
    caller has to wait, because the counter is zero. *)
Definition acquire (s : Semaphore) : option Semaphore :=
  if 0 <? _value s then Some {| _value := _value s - 1 |} else None.

(** [release()] *)
Definition release (s : Semaphore) : Semaphore :=
  {| _value := _value s + 1 |}.

End Py.
Export Py.

(** The process environment as the code reads it: [os.environ] and
    [os.path.isfile]. *)
Record Os : Type := {
  environ : gmap string string;
  isfile : string -> bool
}.

(** ** [debian_commands.py] *)

Definition NON_DEBIAN_BOM_REPOSITORIES : list string := ["spin"].

(** The attributes of the [options] namespace that this module touches. *)
Record Options : Type := {
  github_disable_upstream_push : bool;
  max_local_builds : Z;
  gradle_cache_path : option string;
  run_unit_tests : bool;
  bintray_org : option string;
  bintray_jar_repository : option string;
  bintray_debian_repository : option string;
  bintray_publish_wait_secs : option Z
}.

Definition set_github_disable_upstream_push (v : bool) (o : Options) : Options :=
  {| github_disable_upstream_push := v;
     max_local_builds := max_local_builds o;
     gradle_cache_path := gradle_cache_path o;
     run_unit_tests := run_unit_tests o;
     bintray_org := bintray_org o;
     bintray_jar_repository := bintray_jar_repository o;
     bintray_debian_repository := bintray_debian_repository o;
     bintray_publish_wait_secs := bintray_publish_wait_secs o |}.

Record Repository : Type := {
  name : string;
  git_dir : string
}.

(** What the module calls on objects defined elsewhere in buildtool:
    [GradleCommandProcessor.__init__] (which receives the caller's options
    object, may write to it and may raise), the [self.scm] source code
    manager and the [self.gradle] runner. [get_common_args] is the list
    that one call returns; [_do_repository] appends to that very list. *)
Record Buildtool : Type := {
  GradleCommandProcessor_init : Options -> Options * result unit;
  get_repository_service_build_version : Repository -> string;
  consider_debian_on_bintray : Repository -> string -> bool;
  get_common_args : list string;
  get_debian_args : string -> list string;
  check_run : list string -> Repository -> string -> string -> result unit
}.

(** Modelled from the spec: [raise_and_log_error] of the [buildtool]
    package is not among the sources; by its name and its use it raises
    the error it is given. *)
Definition raise_and_log_error {A : Type} (error : exn) : result A :=
  Raise error.

(** [getattr(options, key)] seen as set or not set, for the option names
    that [__init__] passes to [check_options_set]. A name the namespace
    does not have counts as not set. *)
Definition option_is_set (options : Options) (key : string) : bool :=
  if String.eqb key "bintray_org" then bool_decide (is_Some (bintray_org options))
  else if String.eqb key "bintray_jar_repository"
       then bool_decide (is_Some (bintray_jar_repository options))
  else if String.eqb key "bintray_debian_repository"
       then bool_decide (is_Some (bintray_debian_repository options))
  else if String.eqb key "bintray_publish_wait_secs"
       then bool_decide (is_Some (bintray_publish_wait_secs options))
  else false.

(** Modelled from the spec: [check_options_set] of the [buildtool] package
    is not among the sources. The spec: construction "fails fatally
    (configuration error) if any required option ... is absent". *)
Definition check_options_set (options : Options) (name_list : list string)
  : result unit :=
  match filter (fun key => option_is_set options key = false) name_list with
  | [] => Ok tt
  | missing_keys =>
      raise_and_log_error
        (ConfigError ("Missing options: " +:+ String.concat ", " missing_keys))
  end.

(** A [BuildDebianCommand] instance: the options object it holds and its
    private semaphore. *)
Record BuildDebianCommand : Type := {
  options : Options;
  __semaphore : Semaphore
}.

(** [BuildDebianCommand.__init__]. The first component is the caller's
    options object as the call leaves it, whether or not the call raises. *)
Definition BuildDebianCommand_init (bt : Buildtool) (os : Os) (options : Options)
  : Options * result BuildDebianCommand :=
  let options := set_github_disable_upstream_push true options in
  match GradleCommandProcessor_init bt options with
  | (options, Raise e) => (options, Raise e)
  | (options, Ok _) =>
      match Semaphore_new (max_local_builds options) with
      | Raise e => (options, Raise e)
      | Ok semaphore =>
          if negb (opt_truthy (environ os !! "BINTRAY_KEY")) then
            (options, raise_and_log_error (ConfigError "Expected BINTRAY_KEY set."))
          else if negb (opt_truthy (environ os !! "BINTRAY_USER")) then
            (options, raise_and_log_error (ConfigError "Expected BINTRAY_USER set."))
          else
            match check_options_set options
                    ["bintray_org"; "bintray_jar_repository";
                     "bintray_debian_repository"; "bintray_publish_wait_secs"] with
            | Raise e => (options, Raise e)
            | Ok _ =>
                (options, Ok {| options := options; __semaphore := semaphore |})
            end
      end
  end.

(** [BuildDebianCommand._do_can_skip_repository] *)
Definition _do_can_skip_repository (bt : Buildtool) (self : BuildDebianCommand)
    (repository : Repository) : bool :=
  if bool_decide (name repository ∈ NON_DEBIAN_BOM_REPOSITORIES) then true
  else
    let build_version := get_repository_service_build_version bt repository in
    consider_debian_on_bintray bt repository build_version.

(** *** Running a method: the instance, the gate and what was called

    A method body runs on the instance and leaves a trace of what it did
    to the semaphore and of its calls to [check_run]. It returns, raises,
    or is left waiting at a semaphore whose counter is zero. *)

Inductive gate_event : Type :=
| Acquired
| CheckRun (args : list string) (repository : Repository) (phase artifact : string)
| Released.

Record Proc : Type := {
  self : BuildDebianCommand;
  trace : list gate_event
}.

Inductive outcome (A : Type) : Type :=
| Returned (a : A) (s : Proc)
| Raised (e : exn) (s : Proc)
| Waiting (s : Proc).
Arguments Returned {A} a s.
Arguments Raised {A} e s.
Arguments Waiting {A} s.

Definition M (A : Type) : Type := Proc -> outcome A.

Definition final {A : Type} (o : outcome A) : Proc :=
  match o with Returned _ s | Raised _ s | Waiting s => s end.

Module MNotation.

Definition ret {A : Type} (a : A) : M A := fun s => Returned a s.

Definition bind {A B : Type} (c : M A) (k : A -> M B) : M B :=
  fun s =>
    match c s with
    | Returned a s' => k a s'
    | Raised e s' => Raised e s'
    | Waiting s' => Waiting s'
    end.

Definition raise {A : Type} (e : exn) : M A := fun s => Raised e s.

(** [try: body finally: cleanup] *)
Definition try_finally {A : Type} (body : M A) (cleanup : M unit) : M A :=
  fun s =>
    match body s with
    | Returned a s' => bind cleanup (fun _ => ret a) s'
    | Raised e s' => bind cleanup (fun _ => raise e) s'
    | Waiting s' => Waiting s'
    end.

Notation "'do' x <- c ; k" := (bind c (fun x => k))
  (at level 10, x name, c at level 100, k at level 200).
Notation "c ;; k" := (bind c (fun _ => k))
  (at level 100, k at level 200, right associativity).

End MNotation.
Import MNotation.

Definition get_self : M BuildDebianCommand := fun s => Returned (self s) s.

Definition log (e : gate_event) (s : Proc) : Proc :=
  {| self := self s; trace := trace s ++ [e] |}.

Definition put_semaphore (sem : Semaphore) (s : Proc) : Proc :=
  {| self := {| options := options (self s); __semaphore := sem |};
     trace := trace s |}.

(** [self.__semaphore.__enter__()], that is [acquire()]. *)
Definition semaphore_enter : M unit :=
  fun s =>
    match acquire (__semaphore (self s)) with
    | Some sem => Returned tt (log Acquired (put_semaphore sem s))
    | None => Waiting s
    end.

(** [self.__semaphore.__exit__(...)], that is [release()]; it returns
    [None], so an exception of the body goes on. *)
Definition semaphore_exit : M unit :=
  fun s => Returned tt (log Released (put_semaphore (release (__semaphore (self s))) s)).

(** [with self.__semaphore: body] *)
Definition with_semaphore {A : Type} (body : M A) : M A :=
  semaphore_enter ;; try_finally body semaphore_exit.

(** [self.gradle.check_run(args, self, repository, phase, artifact)] *)
Definition gradle_check_run (bt : Buildtool) (args : list string)
    (repository : Repository) (phase artifact : string) : M unit :=
  fun s =>
    let s' := log (CheckRun args repository phase artifact) s in
    match check_run bt args repository phase artifact with
    | Ok _ => Returned tt s'
    | Raise e => Raised e s'
    end.

(** The argument list that [_do_repository] assembles (its lines up to the
    [with] statement); [args.append] and [args.extend] add at the end. *)
Definition _do_repository_args (bt : Buildtool) (os : Os) (options : Options)
    (repository : Repository) : list string :=
  let name := name repository in
  let args := get_common_args bt in
  let args :=
    match gradle_cache_path options with
    | Some path =>
        if str_truthy path then args ++ ["--gradle-user-home=" +:+ path] else args
    | None => args
    end in
  let args :=
    if negb (run_unit_tests options)
       || (String.eqb name "deck" && negb (bool_decide (is_Some (environ os !! "CHROME_BIN"))))
    then args ++ ["-x test"] else args in
  let args :=
    if isfile os (os_path_join (git_dir repository) ["gradle"; "init-publish.gradle"])
    then args ++ ["-I gradle/init-publish.gradle"] else args in
  args ++ get_debian_args bt "trusty,xenial,bionic".

(** [BuildDebianCommand._do_repository] *)
Definition _do_repository (bt : Buildtool) (os : Os) (repository : Repository)
  : M unit :=
  do this <- get_self;
  let options := options this in
  let args := _do_repository_args bt os options repository in
  with_semaphore (gradle_check_run bt args repository "candidate" "debian-build").

(** Modelled from the spec: the driver that constructs the command and then
    hands it the repositories belongs to the base classes, which are not
    among the sources. The spec: validation runs "exactly once, before any
    repository is processed", and a failed build "does not abort other ...
    subsequent repositories". *)
Fixpoint process_repositories (bt : Buildtool) (os : Os)
    (repositories : list Repository) (s : Proc) : Proc :=
  match repositories with
  | [] => s
  | repository :: rest =>
      if _do_can_skip_repository bt (self s) repository
      then process_repositories bt os rest s
      else
        match _do_repository bt os repository s with
        | Returned _ s' | Raised _ s' => process_repositories bt os rest s'
        | Waiting s' => s'
        end
  end.

(** Modelled from the spec: the whole run, which is the construction and
    then, if there is an instance, the repositories. *)
Definition build_debians (bt : Buildtool) (os : Os) (options : Options)
    (repositories : list Repository) : result Proc :=
  match snd (BuildDebianCommand_init bt os options) with
  | Raise e => Raise e
  | Ok this => Ok (process_repositories bt os repositories {| self := this; trace := [] |})
  end.

(** *** Several [_do_repository] calls in flight on one instance

    Each call is somewhere around its [with self.__semaphore] statement;
    the calls share the semaphore and are interleaved in any order. The
    outcome of [check_run] is left open. *)

Inductive phase : Type :=
| AtWith                      (* arguments assembled, [__enter__] not yet done *)
| InCheckRun                  (* holds the gate, [check_run] is executing *)
| Leaving (r : result unit)   (* [check_run] is over, [__exit__] not yet done *)
| Done (r : result unit).     (* out of the [with] statement *)

Record Dispatch : Type := {
  gate : Semaphore;
  in_flight : list phase
}.

Inductive step : Dispatch -> Dispatch -> Prop :=
| step_call d :
    step d {| gate := gate d; in_flight := in_flight d ++ [AtWith] |}
| step_enter d i sem :
    in_flight d !! i = Some AtWith ->
    acquire (gate d) = Some sem ->
    step d {| gate := sem; in_flight := <[i := InCheckRun]> (in_flight d) |}
| step_check_run_over d i r :
    in_flight d !! i = Some InCheckRun ->
    step d {| gate := gate d; in_flight := <[i := Leaving r]> (in_flight d) |}
| step_exit d i r :
    in_flight d !! i = Some (Leaving r) ->
    step d {| gate := release (gate d); in_flight := <[i := Done r]> (in_flight d) |}.

(** A dispatch run of an instance: no call yet, the gate as [__init__]
    made it. *)
Definition dispatch_start (this : BuildDebianCommand) : Dispatch :=
  {| gate := __semaphore this; in_flight := [] |}.

Definition reachable (this : BuildDebianCommand) (d : Dispatch) : Prop :=
  rtc step (dispatch_start this) d.

Definition in_check_run (p : phase) : bool :=
  match p with InCheckRun => true | _ => false end.

Definition holds_gate (p : phase) : bool :=
  match p with InCheckRun | Leaving _ => true | _ => false end.

Fixpoint count (f : phase -> bool) (l : list phase) : Z :=
  match l with
  | [] => 0
  | p :: l' => (if f p then 1 else 0) + count f l'
  end.

(** The number of [check_run] invocations executing at this moment. *)
Definition executing (d : Dispatch) : Z := count in_check_run (in_flight d).

(** *** A dispatch run driven by [_do_repository] itself

    What a call does is not written down a second time here: it is read
    off the embedded method. [call_events] are the events that
    [_do_repository] performs, in its own order, when it is not kept
    waiting (its trace on the instance with a permit at hand). A call in
    flight goes through these events one at a time. The semaphore is the
    one object the calls share, so [Acquired] goes through only when
    [acquire] on the shared counter does, and [Released] is [release] on
    it; [check_run] takes time, it starts in one step and is over in a
    later one. Which call moves next is up to the schedule. *)

Definition call_events (bt : Buildtool) (os : Os) (this : BuildDebianCommand)
    (repository : Repository) : list gate_event :=
  trace (final (_do_repository bt os repository
                  {| self := {| options := options this;
                                __semaphore := {| _value := 1 |} |};
                     trace := [] |})).

(** A call in flight: the events it has still to perform, and whether the
    [check_run] at the head of them is executing. *)
Record Flight : Type := {
  remaining : list gate_event;
  running : bool
}.

Record Floor : Type := {
  shared : Semaphore;
  flights : list Flight
}.

Inductive choice : Type :=
| Arrive (repository : Repository)   (* a further [_do_repository] call begins *)
| Move (i : nat).                    (* the [i]th call performs its next event *)

Definition at_rest (events : list gate_event) : Flight :=
  {| remaining := events; running := false |}.

(** The next event of the [i]th call; [None] when the call cannot move: it
    is at [Acquired] with the counter at zero, or it has nothing left. *)
Definition move (i : nat) (f : Floor) : option Floor :=
  match flights f !! i with
  | None => None
  | Some c =>
      match remaining c, running c with
      | Acquired :: rest, false =>
          match acquire (shared f) with
          | Some sem => Some {| shared := sem; flights := <[i := at_rest rest]> (flights f) |}
          | None => None
          end
      | Released :: rest, false =>
          Some {| shared := release (shared f);
                  flights := <[i := at_rest rest]> (flights f) |}
      | CheckRun _ _ _ _ :: _, false =>
          Some {| shared := shared f;
                  flights := <[i := {| remaining := remaining c; running := true |}]>
                               (flights f) |}
      | CheckRun _ _ _ _ :: rest, true =>
          Some {| shared := shared f; flights := <[i := at_rest rest]> (flights f) |}
      | _, _ => None
      end
  end.

Definition take_choice (bt : Buildtool) (os : Os) (this : BuildDebianCommand)
    (f : Floor) (c : choice) : option Floor :=
  match c with
  | Arrive repository =>
      Some {| shared := shared f;
              flights := flights f ++ [at_rest (call_events bt os this repository)] |}
  | Move i => move i f
  end.

(** The floor after a schedule, if every choice of it could be taken. *)
Fixpoint follow (bt : Buildtool) (os : Os) (this : BuildDebianCommand)
    (schedule : list choice) (f : Floor) : option Floor :=
  match schedule with
  | [] => Some f
  | c :: later =>
      match take_choice bt os this f c with
      | Some f' => follow bt os this later f'
      | None => None
      end
  end.

(** No call yet, the semaphore as [__init__] made it. *)
Definition floor_start (this : BuildDebianCommand) : Floor :=
  {| shared := __semaphore this; flights := [] |}.

Fixpoint total {A : Type} (g : A -> Z) (l : list A) : Z :=
  match l with
  | [] => 0
  | x :: l' => g x + total g l'
  end.


(** The permits that a call has taken and not yet given back, counted on
    what it has still to do: releases to come less acquisitions to come. *)
Fixpoint owed (events : list gate_event) : Z :=
  match events with
  | [] => 0
  | Acquired :: rest => owed rest - 1
  | Released :: rest => owed rest + 1
  | CheckRun _ _ _ _ :: rest => owed rest
  end.

(** The permits out at this moment. *)
Definition permits_out (f : Floor) : Z :=
  total (fun c => owed (remaining c)) (flights f).

(** Where a call can be on its way through the events of
    [_do_repository]. *)
Definition on_its_way (c : Flight) : Prop :=
  exists args repository,
    let build := CheckRun args repository "candidate" "debian-build" in
    (remaining c = [Acquired; build; Released] /\ running c = false)
    \/ remaining c = [build; Released]
    \/ (remaining c = [Released] /\ running c = false)
    \/ (remaining c = [] /\ running c = false).

(** Permits left plus permits out is what the semaphore started with, and
    every call is somewhere on the way of [_do_repository]. *)
Definition floor_balanced (capacity : Z) (f : Floor) : Prop :=
  0 <= _value (shared f)
  /\ _value (shared f) + permits_out f = capacity
  /\ Forall on_its_way (flights f).

(** ** [gcs_pubsub_trigger_agent.py]

    A naive UTC [datetime] is its number of microseconds since the epoch
    and a [timedelta] a number of microseconds, both exact integers as in
    Python. *)

Abbreviation datetime := Z (only parsing).
Abbreviation timedelta := Z (only parsing).

Definition timedelta_of_seconds (seconds : Z) : timedelta := seconds * 1000000.
Definition timedelta_of_minutes (minutes : Z) : timedelta :=
  timedelta_of_seconds (minutes * 60).

(** What the status object and the operation call on objects of citest and
    of the test that uses them: the upload agent's client, the gate
    agent's [get], and the delegate status built by [status_class]. A call
    that goes over the network is given the clock reading at which it
    starts and gives back the reading at which it is over. *)
Record Citest (D R : Type) : Type := {
  upload_file : string -> string -> string -> datetime -> result unit * datetime;
  gate_get : string -> datetime -> result R * datetime;
  status_class : D;
  _bind_id : string -> D -> D;
  _bind_detail_path : string -> D -> D;
  trigger_refresh : D -> datetime -> D * result unit * datetime;
  trigger_finished_ok : D -> bool
}.
Arguments upload_file {D R} _ _ _ _ _.
Arguments gate_get {D R} _ _ _.
Arguments status_class {D R} _.
Arguments _bind_id {D R} _ _ _.
Arguments _bind_detail_path {D R} _ _ _.
Arguments trigger_refresh {D R} _ _ _.
Arguments trigger_finished_ok {D R} _ _.

(** The calls that the modelled code makes, in the order it makes them. *)
Inductive call : Type :=
| UploadFile (bucket_name upload_path local_filename : string)
| BindAgent
| SuperInit
| StatusClass
| BindId (id : string)
| BindDetailPath (path : string)
| Get (path : string)
| Utcnow
| TriggerRefresh
| TriggerFinishedOk.

(** The wall clock and the calls so far, each with the clock reading at
    which it was issued. *)
Record World : Type := {
  clock : datetime;
  history : list (datetime * call)
}.

Definition issue (c : call) (w : World) : World :=
  {| clock := clock w; history := history w ++ [(clock w, c)] |}.

Definition at_clock (t : datetime) (w : World) : World :=
  {| clock := t; history := history w |}.

(** The private attributes of a [GcsPubsubTriggerOperationStatus]. *)
Record GcsPubsubTriggerOperationStatus (D R : Type) : Type := {
  __status_path : string;
  __trigger_status : D;
  __trigger_response : R;
  __start : datetime;
  __timeout_delta : timedelta;
  __is_timed_out : bool;
  __finished_ok : bool
}.
Arguments __status_path {D R} _.
Arguments __trigger_status {D R} _.
Arguments __trigger_response {D R} _.
Arguments __start {D R} _.
Arguments __timeout_delta {D R} _.
Arguments __is_timed_out {D R} _.
Arguments __finished_ok {D R} _.

Section Status.

Context {D R : Type}.
Implicit Type st : GcsPubsubTriggerOperationStatus D R.
Implicit Type ct : Citest D R.
Implicit Type w : World.

(** The properties. *)
Definition finished_ok st : bool := __finished_ok st.
Definition timed_out st : bool := __is_timed_out st.
Definition timeout_delta st : timedelta := __timeout_delta st.
Definition finished st : bool := finished_ok st || timed_out st.

(** The [timeout_delta] setter. *)
Definition set_timeout_delta (val : timedelta) st
  : GcsPubsubTriggerOperationStatus D R :=
  {| __status_path := __status_path st;
     __trigger_status := __trigger_status st;
     __trigger_response := __trigger_response st;
     __start := __start st;
     __timeout_delta := val;
     __is_timed_out := __is_timed_out st;
     __finished_ok := __finished_ok st |}.

(** The attribute writes of [refresh]. *)
Definition set_trigger_status (d : D) st : GcsPubsubTriggerOperationStatus D R :=
  {| __status_path := __status_path st;
     __trigger_status := d;
     __trigger_response := __trigger_response st;
     __start := __start st;
     __timeout_delta := __timeout_delta st;
     __is_timed_out := __is_timed_out st;
     __finished_ok := __finished_ok st |}.

Definition set_finished_ok (b : bool) st : GcsPubsubTriggerOperationStatus D R :=
  {| __status_path := __status_path st;
     __trigger_status := __trigger_status st;
     __trigger_response := __trigger_response st;
     __start := __start st;
     __timeout_delta := __timeout_delta st;
     __is_timed_out := __is_timed_out st;
     __finished_ok := b |}.

Definition set_is_timed_out (b : bool) st : GcsPubsubTriggerOperationStatus D R :=
  {| __status_path := __status_path st;
     __trigger_status := __trigger_status st;
     __trigger_response := __trigger_response st;
     __start := __start st;
     __timeout_delta := __timeout_delta st;
     __is_timed_out := b;
     __finished_ok := __finished_ok st |}.

(** [datetime.datetime.utcnow()] *)
Definition utcnow w : datetime * World := (clock w, issue Utcnow w).

(** [GcsPubsubTriggerOperationStatus.refresh]. The delegate object is
    updated in place by its own [refresh], also when that raises. *)
Definition refresh ct st w
  : GcsPubsubTriggerOperationStatus D R * result unit * World :=
  if __finished_ok st then (st, Ok tt, w)
  else
    let w := issue TriggerRefresh w in
    let '(d, r, t) := trigger_refresh ct (__trigger_status st) (clock w) in
    let st := set_trigger_status d st in
    let w := at_clock t w in
    match r with
    | Raise e => (st, Raise e, w)
    | Ok _ =>
        let w := issue TriggerFinishedOk w in
        let st := set_finished_ok (trigger_finished_ok ct (__trigger_status st)) st in
        if __finished_ok st then (st, Ok tt, w)
        else
          let '(ping, w) := utcnow w in
          let diff := ping - __start st in
          let st := set_is_timed_out (diff >? timeout_delta st) st in
          (st, Ok tt, w)
    end.

(** [GcsPubsubTriggerOperationStatus.__init__] *)
Definition GcsPubsubTriggerOperationStatus_init ct (status_path : string) w
  : result (GcsPubsubTriggerOperationStatus D R) * World :=
  let w := issue BindAgent w in
  let w := issue SuperInit w in
  let w := issue StatusClass w in
  let trigger_status := status_class ct in
  let w := issue (BindId "n/a") w in
  let trigger_status := _bind_id ct "n/a" trigger_status in
  let w := issue (BindDetailPath status_path) w in
  let trigger_status := _bind_detail_path ct status_path trigger_status in
  let w := issue (Get status_path) w in
  match gate_get ct status_path (clock w) with
  | (Raise e, t) => (Raise e, at_clock t w)
  | (Ok trigger_response, t) =>
      let w := at_clock t w in
      let '(start, w) := utcnow w in
      (Ok {| __status_path := status_path;
             __trigger_status := trigger_status;
             __trigger_response := trigger_response;
             __start := start;
             __timeout_delta := timedelta_of_minutes 5;
             __is_timed_out := false;
             __finished_ok := false |}, w)
  end.

(** [GcsPubsubUploadTriggerOperation._do_execute] *)
Definition _do_execute ct (bucket_name upload_path local_filename status_path : string) w
  : result (GcsPubsubTriggerOperationStatus D R) * World :=
  let w := issue (UploadFile bucket_name upload_path local_filename) w in
  match upload_file ct bucket_name upload_path local_filename (clock w) with
  | (Raise e, t) => (Raise e, at_clock t w)
  | (Ok _, t) => GcsPubsubTriggerOperationStatus_init ct status_path (at_clock t w)
  end.

(** What a caller can do with a status it holds: poll it, change its
    timeout, or let wall-clock time pass. *)
Inductive action : Type :=
| DoRefresh
| DoSetTimeoutDelta (val : timedelta)
| DoWait (d : timedelta).

Definition perform ct (sw : GcsPubsubTriggerOperationStatus D R * World) (a : action)
  : GcsPubsubTriggerOperationStatus D R * World :=
  let '(st, w) := sw in
  match a with
  | DoRefresh => let '(st', _, w') := refresh ct st w in (st', w')
  | DoSetTimeoutDelta val => (set_timeout_delta val st, w)
  | DoWait d => (st, at_clock (clock w + d) w)
  end.

Definition perform_all ct (actions : list action)
    (sw : GcsPubsubTriggerOperationStatus D R * World)
  : GcsPubsubTriggerOperationStatus D R * World :=
  foldl (perform ct) sw actions.

Definition is_refresh (a : action) : bool :=
  match a with DoRefresh => true | _ => false end.

End Status.

(** Permits left plus permits held is what the gate started with. *)
Definition gate_balanced (capacity : Z) (d : Dispatch) : Prop :=
  0 <= _value (gate d)
  /\ _value (gate d) + count holds_gate (in_flight d) = capacity.

(** A required value is absent: one of the two environment variables, or
    one of the four options that [__init__] checks. *)
Definition missing_required (os : Os) (options : Options) : Prop :=
  environ os !! "BINTRAY_KEY" = None
  \/ environ os !! "BINTRAY_USER" = None
  \/ bintray_org options = None
  \/ bintray_jar_repository options = None
  \/ bintray_debian_repository options = None
  \/ bintray_publish_wait_secs options = None.

(** Equality of calls is decidable. *)
#[global] Instance call_eq_dec : EqDecision call.
Proof. solve_decision. Defined.

(** In a history, some [first] call was issued strictly before some [second]
    call. *)
Fixpoint issued_before (first second : call) (h : list (datetime * call)) : bool :=
  match h with
  | [] => false
  | (_, c) :: later =>
      (bool_decide (c = first) && existsb (fun tc => bool_decide (snd tc = second)) later)
      || issued_before first second later
  end.

(** How often a call occurs in a history. *)
Definition times_issued (c : call) (h : list (datetime * call)) : nat :=
  length (filter (fun tc => snd tc = c) h).

(** ** Concrete collaborators and inputs for the examples *)

Module Sample.

(** A gradle runner whose build of [orca] fails, behind a base class that
    accepts every options object and leaves it alone. *)
Definition buildtool : Buildtool :=
  {| GradleCommandProcessor_init := fun o => (o, Ok tt);
     get_repository_service_build_version := fun _ => "1.2.3-20180101";
     consider_debian_on_bintray := fun _ _ => false;
     get_common_args := ["--stacktrace"; "--info"];
     get_debian_args := fun distros =>
       ["candidate"; "-PbintrayPackageDebDistribution=" +:+ distros];
     check_run := fun _ repository _ _ =>
       if String.eqb (name repository) "orca"
       then Raise (OtherError "gradle exited with 1") else Ok tt |}.

Definition host : Os :=
  {| environ := <["BINTRAY_KEY" := "secret"]> (<["BINTRAY_USER" := "builder"]> ∅);
     isfile := fun _ => false |}.

Definition host_without_credentials : Os :=
  {| environ := ∅; isfile := fun _ => false |}.

Definition host_without_user : Os :=
  {| environ := <["BINTRAY_KEY" := "secret"]> ∅; isfile := fun _ => false |}.

Definition opts : Options :=
  {| github_disable_upstream_push := false;
     max_local_builds := 2;
     gradle_cache_path := None;
     run_unit_tests := true;
     bintray_org := Some "spinnaker";
     bintray_jar_repository := Some "jars";
     bintray_debian_repository := Some "debians";
     bintray_publish_wait_secs := Some 10 |}.

Definition opts_negative_builds : Options :=
  {| github_disable_upstream_push := false;
     max_local_builds := -1;
     gradle_cache_path := None;
     run_unit_tests := true;
     bintray_org := Some "spinnaker";
     bintray_jar_repository := Some "jars";
     bintray_debian_repository := Some "debians";
     bintray_publish_wait_secs := Some 10 |}.

Definition opts_no_tests : Options :=
  {| github_disable_upstream_push := false;
     max_local_builds := 2;
     gradle_cache_path := Some "/cache";
     run_unit_tests := false;
     bintray_org := Some "spinnaker";
     bintray_jar_repository := Some "jars";
     bintray_debian_repository := None;
     bintray_publish_wait_secs := Some 10 |}.

Definition deck : Repository := {| name := "deck"; git_dir := "/src/deck" |}.
Definition orca : Repository := {| name := "orca"; git_dir := "/src/orca" |}.

(** The instance that [__init__] builds from [opts]. *)
Definition command : BuildDebianCommand :=
  {| options := set_github_disable_upstream_push true opts;
     __semaphore := {| _value := 2 |} |}.

(** Two calls arrive, both are let in and both start their build. *)
Definition both_building : list choice :=
  [Arrive deck; Arrive orca; Move 0; Move 1; Move 0; Move 1].

(** After [both_building], a third call arrives. *)
Definition third_arrives : list choice := both_building ++ [Arrive deck].

(** After [both_building], both builds end and both calls leave. *)
Definition both_left : list choice :=
  both_building ++ [Move 0; Move 1; Move 0; Move 1].

(** A delegate status that counts its refreshes and reports completion
    from the [finishes_at]th on. A refresh takes 0.2 s, the gate lookup
    7 microseconds, the upload 30 ms. *)
Record Polling : Type := {
  polls : nat;
  bound_id : string;
  detail_path : string
}.

Definition citest (finishes_at : nat) : Citest Polling string :=
  {| upload_file := fun _ _ _ t => (Ok tt, t + 30000);
     gate_get := fun path t => (Ok ("200 OK " +:+ path), t + 7);
     status_class := {| polls := 0; bound_id := ""; detail_path := "" |};
     _bind_id := fun id d =>
       {| polls := polls d; bound_id := id; detail_path := detail_path d |};
     _bind_detail_path := fun path d =>
       {| polls := polls d; bound_id := bound_id d; detail_path := path |};
     trigger_refresh := fun d t =>
       ({| polls := S (polls d); bound_id := bound_id d;
           detail_path := detail_path d |}, Ok tt, t + 200000);
     trigger_finished_ok := fun d => Nat.leb finishes_at (polls d) |}.

Definition epoch : World := {| clock := 0; history := [] |}.

(** The status as [__init__] leaves it when called at [epoch]. *)
Definition fresh_status : GcsPubsubTriggerOperationStatus Polling string :=
  {| __status_path := "pipelines/1";
     __trigger_status :=
       {| polls := 0; bound_id := "n/a"; detail_path := "pipelines/1" |};
     __trigger_response := "200 OK pipelines/1";
     __start := 7;
     __timeout_delta := 300000000;
     __is_timed_out := false;
     __finished_ok := false |}.

Definition after_init : World :=
  {| clock := 7;
     history := [(0, BindAgent); (0, SuperInit); (0, StatusClass); (0, BindId "n/a");
                 (0, BindDetailPath "pipelines/1"); (0, Get "pipelines/1");
                 (7, Utcnow)] |}.

(** A configuration that allows no local build at all, and its instance. *)
Definition opts_no_builds : Options :=
  {| github_disable_upstream_push := false;
     max_local_builds := 0;
     gradle_cache_path := None;
     run_unit_tests := true;
     bintray_org := Some "spinnaker";
     bintray_jar_repository := Some "jars";
     bintray_debian_repository := Some "debians";
     bintray_publish_wait_secs := Some 10 |}.

Definition idle_command : BuildDebianCommand :=
  {| options := set_github_disable_upstream_push true opts_no_builds;
     __semaphore := {| _value := 0 |} |}.

(** A delegate status whose [refresh] raises, as when the gate does not
    answer. *)
Definition citest_unreachable : Citest Polling string :=
  {| upload_file := fun _ _ _ t => (Raise (OtherError "403 Forbidden"), t + 30000);
     gate_get := fun path t => (Raise (OtherError "connection refused"), t + 7);
     status_class := {| polls := 0; bound_id := ""; detail_path := "" |};
     _bind_id := fun id d =>
       {| polls := polls d; bound_id := id; detail_path := detail_path d |};
     _bind_detail_path := fun path d =>
       {| polls := polls d; bound_id := bound_id d; detail_path := path |};
     trigger_refresh := fun d t =>
       ({| polls := S (polls d); bound_id := bound_id d;
           detail_path := detail_path d |},
        Raise (OtherError "connection refused"), t + 200000);
     trigger_finished_ok := fun d => false |}.

End Sample.

(** * Properties of [BuildDebianCommand] *)

Section Gate.

Lemma count_app f (l l' : list phase) : count f (l ++ l') = count f l + count f l'.
Proof. induction l as [|p l IH]; simpl; [reflexivity | rewrite IH; lia]. Qed.

Lemma count_insert f (l : list phase) (i : nat) (p q : phase) :
  l !! i = Some p ->
  count f (<[i := q]> l)
  = count f l - (if f p then 1 else 0) + (if f q then 1 else 0).
Proof.
  revert i; induction l as [|x l IH]; intros [|i] Hi; simpl in *; try discriminate.
  - injection Hi as ->. lia.
  - rewrite (IH _ Hi). lia.
Qed.

Lemma count_in_check_run_le (l : list phase) :
  count in_check_run l <= count holds_gate l.
Proof.
  induction l as [|p l IH]; simpl; [lia|].
  destruct p; simpl; lia.
Qed.

Lemma step_keeps_balance capacity d d' :
  step d d' -> gate_balanced capacity d -> gate_balanced capacity d'.
Proof.
  intros Hstep [Hpos Hsum]; unfold gate_balanced.
  destruct Hstep as [d | d i sem Hi Hacq | d i r Hi | d i r Hi]; simpl.
  - rewrite count_app; simpl. lia.
  - unfold acquire in Hacq.
    destruct (0 <? _value (gate d)) eqn:Hlt; [|discriminate].
    injection Hacq as <-; simpl.
    apply Z.ltb_lt in Hlt.
    rewrite (count_insert _ _ _ _ _ Hi); simpl. lia.
  - rewrite (count_insert _ _ _ _ _ Hi); simpl. lia.
  - rewrite (count_insert _ _ _ _ _ Hi); simpl. lia.
Qed.

Lemma reachable_balanced this d :
  0 <= _value (__semaphore this) ->
  reachable this d ->
  gate_balanced (_value (__semaphore this)) d.
Proof.
  intros Hpos Hreach; unfold reachable in Hreach.
  assert (Hstart : gate_balanced (_value (__semaphore this)) (dispatch_start this))
    by (split; simpl; lia).
  revert Hstart; generalize (_value (__semaphore this)) as capacity.
  induction Hreach as [d | d1 d2 d3 Hstep _ IH]; intros capacity Hbal; [assumption|].
  eapply IH, step_keeps_balance; eassumption.
Qed.

(** What a successful [__init__] leaves behind. *)
Lemma init_ok_inv bt os opts opts' this :
  BuildDebianCommand_init bt os opts = (opts', Ok this) ->
  opts' = options this
  /\ 0 <= max_local_builds (options this)
  /\ __semaphore this = {| _value := max_local_builds (options this) |}
  /\ opt_truthy (environ os !! "BINTRAY_KEY") = true
  /\ opt_truthy (environ os !! "BINTRAY_USER") = true
  /\ GradleCommandProcessor_init bt (set_github_disable_upstream_push true opts)
     = (options this, Ok tt).
Proof.
  unfold BuildDebianCommand_init.
  destruct (GradleCommandProcessor_init bt _) as [o [[]|e]]; [|discriminate].
  unfold Semaphore_new.
  destruct (max_local_builds o <? 0) eqn:Hneg; [discriminate|].
  apply Z.ltb_ge in Hneg.
  destruct (opt_truthy (environ os !! "BINTRAY_KEY")); simpl; [|discriminate].
  destruct (opt_truthy (environ os !! "BINTRAY_USER")); simpl; [|discriminate].
  destruct (check_options_set o _) as [[]|e]; [|discriminate].
  intros [= <- <-]; simpl. repeat split; auto.
Qed.

End Gate.

Section Method.

Variables (bt : Buildtool) (os : Os).

Lemma with_semaphore_free {A : Type} (body : M A) (s : Proc) :
  0 < _value (__semaphore (self s)) ->
  with_semaphore body s
  = try_finally body semaphore_exit
      (log Acquired (put_semaphore {| _value := _value (__semaphore (self s)) - 1 |} s)).
Proof.
  intros Hfree. unfold with_semaphore, bind, semaphore_enter, acquire.
  apply Z.ltb_lt in Hfree. rewrite Hfree. reflexivity.
Qed.

Lemma with_semaphore_busy {A : Type} (body : M A) (s : Proc) :
  _value (__semaphore (self s)) <= 0 ->
  with_semaphore body s = Waiting s.
Proof.
  intros Hbusy. unfold with_semaphore, bind, semaphore_enter, acquire.
  apply Z.ltb_ge in Hbusy. rewrite Hbusy. reflexivity.
Qed.

Lemma semaphore_back (sem : Semaphore) :
  release {| _value := _value sem - 1 |} = sem.
Proof. destruct sem as [v]; unfold release; simpl. f_equal. lia. Qed.

(** With the counter at zero the call waits at the [with] statement:
    nothing is acquired and [check_run] is not called. *)
Lemma _do_repository_waits (repository : Repository) (s : Proc) :
  _value (__semaphore (self s)) <= 0 ->
  _do_repository bt os repository s = Waiting s.
Proof.
  intros Hbusy. unfold _do_repository, bind, get_self.
  apply with_semaphore_busy, Hbusy.
Qed.

(** One call run to its end is a path of the interleaving model: the call
    arrives, enters, [check_run] ends as it does, the call leaves. *)
Lemma _do_repository_is_a_path (repository : Repository) (s : Proc) (others : list phase) :
  0 < _value (__semaphore (self s)) ->
  let args := _do_repository_args bt os (options (self s)) repository in
  let r := check_run bt args repository "candidate" "debian-build" in
  rtc step {| gate := __semaphore (self s); in_flight := others |}
           {| gate := __semaphore (self (final (_do_repository bt os repository s)));
              in_flight := others ++ [Done r] |}.
Proof.
  intros Hfree args r.
  assert (Hsem : __semaphore (self (final (_do_repository bt os repository s)))
                 = __semaphore (self s)).
  { unfold _do_repository, bind, get_self.
    rewrite with_semaphore_free by exact Hfree.
    unfold try_finally, gradle_check_run, bind, semaphore_exit.
    destruct (check_run bt _ _ _ _); simpl; apply semaphore_back. }
  rewrite Hsem.
  assert (Hat : forall p, (others ++ [p]) !! length others = Some p)
    by (intros p; apply list_lookup_middle; reflexivity).
  assert (Hput : forall p q, <[length others := q]> (others ++ [p]) = others ++ [q]).
  { intros p q. rewrite insert_app_r_alt by lia.
    replace (length others - length others)%nat with 0%nat by lia. reflexivity. }
  eapply rtc_l; [apply step_call|]. simpl.
  eapply rtc_l.
  { apply (step_enter _ (length others) {| _value := _value (__semaphore (self s)) - 1 |});
      simpl; [apply Hat|].
    unfold acquire. apply Z.ltb_lt in Hfree. rewrite Hfree. reflexivity. }
  simpl. rewrite Hput.
  eapply rtc_l; [apply (step_check_run_over _ (length others) r); simpl; apply Hat|].
  simpl. rewrite Hput.
  eapply rtc_l; [apply (step_exit _ (length others) r); simpl; apply Hat|].
  simpl. rewrite Hput, semaphore_back. apply rtc_refl.
Qed.

End Method.



Section Construction.

Variables (bt : Buildtool) (os : Os).

Lemma lookup_none_falsy (k : string) :
  environ os !! k = None -> opt_truthy (environ os !! k) = false.
Proof. intros ->. reflexivity. Qed.

(** With one of the four options absent, the check of [__init__] raises
    the configuration error. *)
Lemma check_options_set_missing (o : Options) :
  bintray_org o = None \/ bintray_jar_repository o = None
  \/ bintray_debian_repository o = None \/ bintray_publish_wait_secs o = None ->
  exists message,
    check_options_set o ["bintray_org"; "bintray_jar_repository";
                         "bintray_debian_repository"; "bintray_publish_wait_secs"]
    = Raise (ConfigError message).
Proof.
  intros Hmiss. unfold check_options_set, raise_and_log_error.
  destruct o as [push builds cache tests org jar deb wait]; simpl in Hmiss.
  destruct org, jar, deb, wait; cbn;
    try (eexists; reflexivity).
  destruct Hmiss as [H|[H|[H|H]]]; discriminate H.
Qed.

Lemma check_options_set_present (o : Options) :
  is_Some (bintray_org o) -> is_Some (bintray_jar_repository o) ->
  is_Some (bintray_debian_repository o) -> is_Some (bintray_publish_wait_secs o) ->
  check_options_set o ["bintray_org"; "bintray_jar_repository";
                       "bintray_debian_repository"; "bintray_publish_wait_secs"]
  = Ok tt.
Proof.
  destruct o as [push builds cache tests org jar deb wait]; simpl.
  intros [? ->] [? ->] [? ->] [? ->]. reflexivity.
Qed.

(** The checks of [__init__], once the base class and the semaphore are
    through. *)
Lemma init_checks_raise (opts o : Options) :
  GradleCommandProcessor_init bt (set_github_disable_upstream_push true opts)
  = (o, Ok tt) ->
  0 <= max_local_builds o ->
  missing_required os o ->
  exists message,
    BuildDebianCommand_init bt os opts = (o, Raise (ConfigError message)).
Proof.
  intros Hbase Hpos Hmiss. unfold BuildDebianCommand_init. rewrite Hbase.
  unfold Semaphore_new. apply Z.ltb_ge in Hpos. rewrite Hpos.
  unfold raise_and_log_error.
  destruct (opt_truthy (environ os !! "BINTRAY_KEY")) eqn:Hkey; simpl;
    [|eexists; reflexivity].
  destruct (opt_truthy (environ os !! "BINTRAY_USER")) eqn:Huser; simpl;
    [|eexists; reflexivity].
  destruct Hmiss as [H|[H|H]].
  - rewrite (lookup_none_falsy _ H) in Hkey. discriminate.
  - rewrite (lookup_none_falsy _ H) in Huser. discriminate.
  - destruct (check_options_set_missing o H) as [message ->].
    eexists; reflexivity.
Qed.

End Construction.

(** C3, as the claim has it, fails: with [max_local_builds] negative the
    semaphore is refused before the credentials are looked at, and what
    leaves [__init__] is a [ValueError], not the configuration error. *)
Lemma init_config_error_counterexample :
  missing_required Sample.host_without_credentials Sample.opts_negative_builds
  /\ snd (BuildDebianCommand_init Sample.buildtool Sample.host_without_credentials
            Sample.opts_negative_builds)
     = Raise (ValueError "semaphore initial value must be >= 0")
  /\ ~ (exists message,
          snd (BuildDebianCommand_init Sample.buildtool Sample.host_without_credentials
                 Sample.opts_negative_builds)
          = Raise (ConfigError message)).
Proof.
  split; [left; vm_compute; reflexivity|].
  split; [vm_compute; reflexivity|].
  intros [message H]. vm_compute in H. discriminate H.
Qed.

(** C3, amended. When a required value is absent (one of the two
    environment variables, or one of the four options on the object that
    the check reads), [__init__] raises, so the driver gets no instance and
    processes no repository; and once the base class initialiser has
    returned and [max_local_builds] is not negative, what it raises is the
    configuration error. *)
Theorem init_missing_required_raises bt os opts repositories :
  let given := set_github_disable_upstream_push true opts in
  let checked := fst (GradleCommandProcessor_init bt given) in
  missing_required os checked ->
  (exists e,
      snd (BuildDebianCommand_init bt os opts) = Raise e
      /\ build_debians bt os opts repositories = Raise e)
  /\ (snd (GradleCommandProcessor_init bt given) = Ok tt ->
      0 <= max_local_builds checked ->
      exists message,
        snd (BuildDebianCommand_init bt os opts) = Raise (ConfigError message)).
Proof.
  intros given checked Hmiss.
  assert (Hconfig : snd (GradleCommandProcessor_init bt given) = Ok tt ->
                    0 <= max_local_builds checked ->
                    exists message,
                      snd (BuildDebianCommand_init bt os opts) = Raise (ConfigError message)).
  { intros Hok Hpos.
    destruct (init_checks_raise bt os opts checked) as [message Hinit]; auto.
    - subst checked given.
      destruct (GradleCommandProcessor_init bt _) as [o r]; simpl in *. now subst r.
    - exists message. now rewrite Hinit. }
  split; [|exact Hconfig].
  assert (Hraise : exists e, snd (BuildDebianCommand_init bt os opts) = Raise e).
  { destruct (snd (GradleCommandProcessor_init bt given)) as [[]|e] eqn:Hbase.
    - destruct (Z_lt_le_dec (max_local_builds checked) 0) as [Hneg|Hpos].
      + subst checked given. unfold BuildDebianCommand_init.
        destruct (GradleCommandProcessor_init bt _) as [o r]; simpl in *. subst r.
        unfold Semaphore_new. apply Z.ltb_lt in Hneg. rewrite Hneg.
        eexists; reflexivity.
      + destruct (Hconfig eq_refl Hpos) as [message H]. eauto.
    - subst checked given. unfold BuildDebianCommand_init.
      destruct (GradleCommandProcessor_init bt _) as [o r]; simpl in *. subst r.
      eexists; reflexivity. }
  destruct Hraise as [e He]. exists e. split; [exact He|].
  unfold build_debians. now rewrite He.
Qed.

Lemma init_missing_required_raises_witness :
  missing_required Sample.host_without_user Sample.opts
  /\ snd (BuildDebianCommand_init Sample.buildtool Sample.host_without_user Sample.opts)
     = Raise (ConfigError "Expected BINTRAY_USER set.")
  /\ build_debians Sample.buildtool Sample.host_without_user Sample.opts
       [Sample.deck; Sample.orca]
     = Raise (ConfigError "Expected BINTRAY_USER set.").
Proof.
  assert (Hmiss : missing_required Sample.host_without_user
                    (fst (GradleCommandProcessor_init Sample.buildtool
                            (set_github_disable_upstream_push true Sample.opts))))
    by (right; left; vm_compute; reflexivity).
  split; [exact Hmiss|].
  destruct (init_missing_required_raises Sample.buildtool Sample.host_without_user
              Sample.opts [Sample.deck; Sample.orca] Hmiss)
    as [[e [Hinit Hrun]] _].
  rewrite Hrun.
  assert (He : Raise e = Raise (A := BuildDebianCommand)
                           (ConfigError "Expected BINTRAY_USER set."))
    by (rewrite <- Hinit; vm_compute; reflexivity).
  injection He as ->. split; [vm_compute|]; reflexivity.
Defined.

Section Arguments.

Variables (bt : Buildtool) (os : Os) (opts : Options) (repository : Repository).

(** The condition of the second [if] of [_do_repository]. *)
Lemma skip_condition :
  negb (run_unit_tests opts)
  || (String.eqb (name repository) "deck"
      && negb (bool_decide (is_Some (environ os !! "CHROME_BIN")))) = true
  <-> run_unit_tests opts = false
      \/ (name repository = "deck" /\ environ os !! "CHROME_BIN" = None).
Proof.
  rewrite orb_true_iff, andb_true_iff, !negb_true_iff, String.eqb_eq,
    bool_decide_eq_false, <- eq_None_not_Some.
  reflexivity.
Qed.

Lemma cache_arg_not_flag (path : string) :
  "-x test" <> "--gradle-user-home=" +:+ path.
Proof. simpl. discriminate. Qed.

(** The assembled list, piece by piece. *)
Lemma flag_in_args :
  "-x test" ∈ _do_repository_args bt os opts repository
  <-> "-x test" ∈ get_common_args bt
      \/ "-x test" ∈ get_debian_args bt "trusty,xenial,bionic"
      \/ negb (run_unit_tests opts)
         || (String.eqb (name repository) "deck"
             && negb (bool_decide (is_Some (environ os !! "CHROME_BIN")))) = true.
Proof.
  unfold _do_repository_args.
  destruct (negb (run_unit_tests opts) || _) eqn:Hcond;
    destruct (isfile os _);
    destruct (gradle_cache_path opts) as [path|];
    try destruct (str_truthy path);
    rewrite ?elem_of_app, ?list_elem_of_singleton;
    pose proof cache_arg_not_flag;
    intuition (try discriminate; eauto; try congruence).
Qed.

End Arguments.

(** C4. Provided the gradle runner's own argument lists do not carry it,
    the argument list assembled for a repository contains ['-x test']
    exactly when [run_unit_tests] is off, or the repository is [deck] and
    [CHROME_BIN] is not in the environment. So [deck] without unit tests
    and without [CHROME_BIN] gets the flag, and [orca] with unit tests
    does not. *)
Theorem skip_tests_flag_iff bt os opts repository :
  "-x test" ∉ get_common_args bt ->
  "-x test" ∉ get_debian_args bt "trusty,xenial,bionic" ->
  ("-x test" ∈ _do_repository_args bt os opts repository
   <-> run_unit_tests opts = false
       \/ (name repository = "deck" /\ environ os !! "CHROME_BIN" = None))
  /\ (name repository = "deck" -> run_unit_tests opts = false ->
      environ os !! "CHROME_BIN" = None ->
      "-x test" ∈ _do_repository_args bt os opts repository)
  /\ (name repository = "orca" -> run_unit_tests opts = true ->
      "-x test" ∉ _do_repository_args bt os opts repository).
Proof.
  intros Hcommon Hdebian.
  assert (Hiff : "-x test" ∈ _do_repository_args bt os opts repository
                 <-> run_unit_tests opts = false
                     \/ (name repository = "deck" /\ environ os !! "CHROME_BIN" = None)).
  { rewrite flag_in_args, skip_condition. tauto. }
  split; [exact Hiff|]. split.
  - intros _ Htests _. apply Hiff. now left.
  - intros Hname Htests Hin. apply Hiff in Hin as [H|[H _]].
    + congruence.
    + rewrite Hname in H. discriminate H.
Qed.

Lemma skip_tests_flag_iff_witness :
  ("-x test" ∉ get_common_args Sample.buildtool)
  /\ ("-x test" ∉ get_debian_args Sample.buildtool "trusty,xenial,bionic")
  /\ ("-x test" ∈ _do_repository_args Sample.buildtool Sample.host
                    Sample.opts_no_tests Sample.deck)
  /\ ("-x test" ∉ _do_repository_args Sample.buildtool Sample.host
                    Sample.opts Sample.orca).
Proof.
  assert (Hcommon : "-x test" ∉ get_common_args Sample.buildtool).
  { simpl. rewrite !not_elem_of_cons. repeat split; try discriminate. apply not_elem_of_nil. }
  assert (Hdebian : "-x test" ∉ get_debian_args Sample.buildtool "trusty,xenial,bionic").
  { simpl. rewrite !not_elem_of_cons. repeat split; try discriminate. apply not_elem_of_nil. }
  split; [exact Hcommon|]. split; [exact Hdebian|]. split.
  - apply (skip_tests_flag_iff Sample.buildtool Sample.host Sample.opts_no_tests
             Sample.deck Hcommon Hdebian); reflexivity.
  - apply (skip_tests_flag_iff Sample.buildtool Sample.host Sample.opts
             Sample.orca Hcommon Hdebian); reflexivity.
Defined.

Section Frame.

Variables (bt : Buildtool) (os : Os).

Lemma init_leaves_options (opts : Options) :
  fst (BuildDebianCommand_init bt os opts)
  = fst (GradleCommandProcessor_init bt (set_github_disable_upstream_push true opts)).
Proof.
  unfold BuildDebianCommand_init.
  destruct (GradleCommandProcessor_init bt _) as [o [[]|e]]; [|reflexivity].
  destruct (Semaphore_new _); [|reflexivity].
  destruct (negb (opt_truthy (environ os !! "BINTRAY_KEY"))); [reflexivity|].
  destruct (negb (opt_truthy (environ os !! "BINTRAY_USER"))); [reflexivity|].
  destruct (check_options_set o _); reflexivity.
Qed.

Lemma _do_repository_keeps_options (repository : Repository) (s : Proc) :
  options (self (final (_do_repository bt os repository s))) = options (self s).
Proof.
  unfold _do_repository, bind, get_self, with_semaphore, bind, semaphore_enter.
  destruct (acquire _); [|reflexivity].
  unfold try_finally, gradle_check_run, bind, semaphore_exit.
  destruct (check_run bt _ _ _ _); reflexivity.
Qed.

Lemma process_repositories_keeps_options (repositories : list Repository) (s : Proc) :
  options (self (process_repositories bt os repositories s)) = options (self s).
Proof.
  revert s; induction repositories as [|repository rest IH]; intros s; simpl;
    [reflexivity|].
  destruct (_do_can_skip_repository bt (self s) repository); [apply IH|].
  pose proof (_do_repository_keeps_options repository s) as Hkeep.
  destruct (_do_repository bt os repository s) as [[] s'|e s'|s']; simpl in Hkeep;
    rewrite <- Hkeep; auto.
Qed.

End Frame.

(** C9, as the claim has it, fails: the first statement of [__init__]
    writes [github_disable_upstream_push] on the caller's options object. *)
Lemma init_writes_options_counterexample :
  github_disable_upstream_push Sample.opts = false
  /\ github_disable_upstream_push
       (fst (BuildDebianCommand_init Sample.buildtool Sample.host Sample.opts)) = true
  /\ fst (BuildDebianCommand_init Sample.buildtool Sample.host Sample.opts) <> Sample.opts.
Proof.
  split; [reflexivity|]. split; [vm_compute; reflexivity|].
  intros H. apply (f_equal github_disable_upstream_push) in H.
  vm_compute in H. discriminate H.
Qed.

(** C9, amended. The code of this class writes one attribute of the options
    object: [__init__] sets [github_disable_upstream_push] to [True] and
    then hands the object to the base class initialiser; what the caller
    finds afterwards is what that initialiser left of it, so with a base
    class that only reads the options every other attribute is as before.
    [_do_repository], alone or over a list of repositories, leaves the
    options as they are. *)
Theorem options_written_once_at_construction bt os opts repositories repository s :
  fst (BuildDebianCommand_init bt os opts)
  = fst (GradleCommandProcessor_init bt (set_github_disable_upstream_push true opts))
  /\ ((forall o, fst (GradleCommandProcessor_init bt o) = o) ->
      fst (BuildDebianCommand_init bt os opts)
      = set_github_disable_upstream_push true opts)
  /\ options (self (final (_do_repository bt os repository s))) = options (self s)
  /\ options (self (process_repositories bt os repositories s)) = options (self s).
Proof.
  split; [apply init_leaves_options|]. split.
  - intros Hbase. rewrite init_leaves_options. apply Hbase.
  - split; [apply _do_repository_keeps_options | apply process_repositories_keeps_options].
Qed.

Lemma options_written_once_at_construction_witness :
  (forall o, fst (GradleCommandProcessor_init Sample.buildtool o) = o)
  /\ fst (BuildDebianCommand_init Sample.buildtool Sample.host Sample.opts)
     = set_github_disable_upstream_push true Sample.opts.
Proof.
  assert (Hbase : forall o, fst (GradleCommandProcessor_init Sample.buildtool o) = o)
    by (intros o; reflexivity).
  split; [exact Hbase|].
  exact (proj1 (proj2 (options_written_once_at_construction
                         Sample.buildtool Sample.host Sample.opts
                         [Sample.deck] Sample.orca
                         {| self := Sample.command; trace := [] |})) Hbase).
Defined.

(** * Properties of [GcsPubsubTriggerOperationStatus] *)

Section Polling.

Context {D R : Type}.
Variable ct : Citest D R.
Implicit Type st : GcsPubsubTriggerOperationStatus D R.
Implicit Type w : World.

Lemma refresh_finished_ok st w :
  finished_ok st = true -> refresh ct st w = (st, Ok tt, w).
Proof. unfold finished_ok, refresh. intros ->. reflexivity. Qed.

Lemma refresh_delegate_done st w d t :
  finished_ok st = false ->
  trigger_refresh ct (__trigger_status st) (clock w) = (d, Ok tt, t) ->
  trigger_finished_ok ct d = true ->
  refresh ct st w
  = (set_finished_ok true (set_trigger_status d st), Ok tt,
     issue TriggerFinishedOk (at_clock t (issue TriggerRefresh w))).
Proof.
  unfold finished_ok, refresh. intros -> Hrefresh Hdone.
  simpl. rewrite Hrefresh. simpl. rewrite Hdone. reflexivity.
Qed.

Lemma refresh_delegate_pending st w d t :
  finished_ok st = false ->
  trigger_refresh ct (__trigger_status st) (clock w) = (d, Ok tt, t) ->
  trigger_finished_ok ct d = false ->
  refresh ct st w
  = (set_is_timed_out (t - __start st >? timeout_delta st)
       (set_finished_ok false (set_trigger_status d st)), Ok tt,
     issue Utcnow (issue TriggerFinishedOk (at_clock t (issue TriggerRefresh w)))).
Proof.
  unfold finished_ok, refresh. intros -> Hrefresh Hpending.
  simpl. rewrite Hrefresh. simpl. rewrite Hpending. reflexivity.
Qed.

(** Once [finished_ok] holds, nothing a caller does changes the status
    apart from its timeout setting, and no call is issued. *)
Lemma perform_all_finished_ok (actions : list action) st w :
  finished_ok st = true ->
  let end_ := perform_all ct actions (st, w) in
  finished_ok (fst end_) = true
  /\ timed_out (fst end_) = timed_out st
  /\ __trigger_status (fst end_) = __trigger_status st
  /\ __start (fst end_) = __start st
  /\ history (snd end_) = history w.
Proof.
  revert st w; induction actions as [|a actions IH]; intros st w Hdone; simpl;
    [auto|].
  destruct a as [|val|d]; simpl.
  - rewrite (refresh_finished_ok _ _ Hdone). apply IH, Hdone.
  - destruct (IH (set_timeout_delta val st) w Hdone) as (? & ? & ? & ? & ?). auto.
  - destruct (IH st (at_clock (clock w + d) w) Hdone) as (? & ? & ? & ? & ?). auto.
Qed.

(** Without a [refresh], the two flags and the start time stay. *)
Lemma perform_all_without_refresh (actions : list action) st w :
  forallb (fun a => negb (is_refresh a)) actions = true ->
  let end_ := perform_all ct actions (st, w) in
  finished_ok (fst end_) = finished_ok st
  /\ timed_out (fst end_) = timed_out st
  /\ __start (fst end_) = __start st.
Proof.
  revert st w; induction actions as [|a actions IH]; intros st w Hno; simpl;
    [auto|].
  simpl in Hno. apply andb_true_iff in Hno as [Ha Hno].
  destruct a as [|val|d]; simpl in *; [discriminate| |].
  - destruct (IH (set_timeout_delta val st) w Hno) as (? & ? & ?). auto.
  - destruct (IH st (at_clock (clock w + d) w) Hno) as (? & ? & ?). auto.
Qed.

(** [_do_execute]: no status object without the upload, and after it the
    constructor runs at the clock reading at which the upload was over. *)
Lemma _do_execute_upload_raises (bucket_name upload_path local_filename status_path : string)
    w e t :
  upload_file ct bucket_name upload_path local_filename (clock w) = (Raise e, t) ->
  _do_execute ct bucket_name upload_path local_filename status_path w
  = (Raise e, at_clock t (issue (UploadFile bucket_name upload_path local_filename) w)).
Proof. unfold _do_execute. simpl. intros ->. reflexivity. Qed.

Lemma _do_execute_uploaded (bucket_name upload_path local_filename status_path : string)
    w t :
  upload_file ct bucket_name upload_path local_filename (clock w) = (Ok tt, t) ->
  _do_execute ct bucket_name upload_path local_filename status_path w
  = GcsPubsubTriggerOperationStatus_init ct status_path
      (at_clock t (issue (UploadFile bucket_name upload_path local_filename) w)).
Proof. unfold _do_execute. simpl. intros ->. reflexivity. Qed.

Lemma init_lookup_raises (status_path : string) w e t :
  gate_get ct status_path (clock w) = (Raise e, t) ->
  fst (GcsPubsubTriggerOperationStatus_init ct status_path w) = Raise e.
Proof. unfold GcsPubsubTriggerOperationStatus_init. simpl. intros ->. reflexivity. Qed.

Lemma init_ok_fields (status_path : string) w0 st0 w1 :
  GcsPubsubTriggerOperationStatus_init ct status_path w0 = (Ok st0, w1) ->
  finished_ok st0 = false /\ timed_out st0 = false
  /\ timeout_delta st0 = timedelta_of_minutes 5.
Proof.
  unfold GcsPubsubTriggerOperationStatus_init.
  destruct (gate_get ct status_path _) as [[response|e] t]; [|discriminate].
  simpl. intros [= <- <-]. auto.
Qed.

End Polling.

(** C5. On a status whose [finished_ok] is already true, [refresh] changes
    no attribute and issues no call (the delegate is not refreshed, the
    clock is not read); so whatever the caller does afterwards,
    [finished_ok] stays true and [timed_out] keeps its value. *)
Theorem refresh_after_finished_ok_is_noop
    {D R : Type} (ct : Citest D R) (st : GcsPubsubTriggerOperationStatus D R)
    (w : World) (actions : list action) :
  finished_ok st = true ->
  refresh ct st w = (st, Ok tt, w)
  /\ finished_ok (fst (perform_all ct actions (st, w))) = true
  /\ timed_out (fst (perform_all ct actions (st, w))) = timed_out st
  /\ __trigger_status (fst (perform_all ct actions (st, w))) = __trigger_status st
  /\ history (snd (perform_all ct actions (st, w))) = history w.
Proof.
  intros Hdone. split; [apply refresh_finished_ok, Hdone|].
  destruct (perform_all_finished_ok ct actions st w Hdone) as (? & ? & ? & ? & ?).
  auto.
Qed.

Lemma refresh_after_finished_ok_is_noop_witness :
  let st := set_finished_ok true Sample.fresh_status in
  finished_ok st = true
  /\ refresh (Sample.citest 1) st Sample.after_init = (st, Ok tt, Sample.after_init)
  /\ timed_out (fst (perform_all (Sample.citest 1)
                       [DoWait (timedelta_of_minutes 10); DoRefresh; DoRefresh]
                       (st, Sample.after_init))) = false.
Proof.
  intros st.
  assert (Hdone : finished_ok st = true) by reflexivity.
  destruct (refresh_after_finished_ok_is_noop (Sample.citest 1) st Sample.after_init
              [DoWait (timedelta_of_minutes 10); DoRefresh; DoRefresh] Hdone)
    as (Hnoop & _ & Htimed & _).
  split; [exact Hdone|]. split; [exact Hnoop|]. exact Htimed.
Defined.

(** C6. On a status whose [finished_ok] is false, a [refresh] during which
    the delegate comes to report [finished_ok] sets [finished_ok] and
    returns: [timed_out] is left as it was and the clock is not read. When
    this is the first [refresh] after construction, [timed_out] is still
    false, however much time has gone by and whatever the timeout is. *)
Theorem refresh_copies_delegate_finished_ok {D R : Type} (ct : Citest D R) :
  (forall (st : GcsPubsubTriggerOperationStatus D R) w d t,
      finished_ok st = false ->
      trigger_refresh ct (__trigger_status st) (clock w) = (d, Ok tt, t) ->
      trigger_finished_ok ct d = true ->
      refresh ct st w
      = (set_finished_ok true (set_trigger_status d st), Ok tt,
         issue TriggerFinishedOk (at_clock t (issue TriggerRefresh w))))
  /\ (forall status_path w0 st0 w1 actions d t,
      GcsPubsubTriggerOperationStatus_init ct status_path w0 = (Ok st0, w1) ->
      forallb (fun a => negb (is_refresh a)) actions = true ->
      let st := fst (perform_all ct actions (st0, w1)) in
      let w := snd (perform_all ct actions (st0, w1)) in
      trigger_refresh ct (__trigger_status st) (clock w) = (d, Ok tt, t) ->
      trigger_finished_ok ct d = true ->
      finished_ok (fst (fst (refresh ct st w))) = true
      /\ timed_out (fst (fst (refresh ct st w))) = false).
Proof.
  split; [apply refresh_delegate_done|].
  intros status_path w0 st0 w1 actions d t Hinit Hno st w Hrefresh Hdone.
  destruct (init_ok_fields ct _ _ _ _ Hinit) as (Hfin0 & Htimed0 & _).
  destruct (perform_all_without_refresh ct actions st0 w1 Hno) as (Hfin & Htimed & _).
  fold st in Hfin, Htimed.
  rewrite (refresh_delegate_done ct st w d t); auto; [|congruence].
  simpl. split; [reflexivity|]. unfold timed_out in *; simpl. congruence.
Qed.

Lemma refresh_copies_delegate_finished_ok_witness :
  GcsPubsubTriggerOperationStatus_init (Sample.citest 1) "pipelines/1" Sample.epoch
  = (Ok Sample.fresh_status, Sample.after_init)
  /\ let late := perform_all (Sample.citest 1) [DoWait (timedelta_of_minutes 60)]
                   (Sample.fresh_status, Sample.after_init) in
     finished_ok (fst (fst (refresh (Sample.citest 1) (fst late) (snd late)))) = true
     /\ timed_out (fst (fst (refresh (Sample.citest 1) (fst late) (snd late)))) = false.
Proof.
  assert (Hinit : GcsPubsubTriggerOperationStatus_init (Sample.citest 1) "pipelines/1"
                    Sample.epoch = (Ok Sample.fresh_status, Sample.after_init))
    by (vm_compute; reflexivity).
  split; [exact Hinit|].
  refine (proj2 (refresh_copies_delegate_finished_ok (Sample.citest 1))
            "pipelines/1" Sample.epoch Sample.fresh_status Sample.after_init
            [DoWait (timedelta_of_minutes 60)] _ _ Hinit _ _ _);
    vm_compute; reflexivity.
Defined.

(** C7. On a status whose [finished_ok] is false, a [refresh] after which
    the delegate does not report [finished_ok] reads the clock and sets
    [timed_out] to [now - start > timeout_delta], a strict comparison; the
    timeout is 5 minutes from construction on. With a timeout of one second
    and the clock read 1.5 seconds after the start, [timed_out] and
    [finished] are true. *)
Theorem refresh_sets_timed_out {D R : Type} (ct : Citest D R) :
  (forall (st : GcsPubsubTriggerOperationStatus D R) w d now,
      finished_ok st = false ->
      trigger_refresh ct (__trigger_status st) (clock w) = (d, Ok tt, now) ->
      trigger_finished_ok ct d = false ->
      refresh ct st w
      = (set_is_timed_out (now - __start st >? timeout_delta st)
           (set_finished_ok false (set_trigger_status d st)), Ok tt,
         issue Utcnow (issue TriggerFinishedOk (at_clock now (issue TriggerRefresh w))))
      /\ timed_out (fst (fst (refresh ct st w)))
         = (now - __start st >? timeout_delta st))
  /\ (forall status_path w0 (st0 : GcsPubsubTriggerOperationStatus D R) w1,
      GcsPubsubTriggerOperationStatus_init ct status_path w0 = (Ok st0, w1) ->
      timeout_delta st0 = timedelta_of_seconds (5 * 60))
  /\ (forall (st : GcsPubsubTriggerOperationStatus D R) w d now,
      finished_ok st = false ->
      trigger_refresh ct (__trigger_status st) (clock w) = (d, Ok tt, now) ->
      trigger_finished_ok ct d = false ->
      timeout_delta st = timedelta_of_seconds 1 ->
      now - __start st = 1500000 ->
      timed_out (fst (fst (refresh ct st w))) = true
      /\ finished (fst (fst (refresh ct st w))) = true).
Proof.
  split; [|split].
  - intros st w d now Hfin Hrefresh Hpending.
    rewrite (refresh_delegate_pending ct st w d now); auto.
  - intros status_path w0 st0 w1 Hinit.
    destruct (init_ok_fields ct _ _ _ _ Hinit) as (_ & _ & ->). reflexivity.
  - intros st w d now Hfin Hrefresh Hpending Hdelta Hlate.
    rewrite (refresh_delegate_pending ct st w d now); auto.
    unfold finished, finished_ok, timed_out; simpl.
    rewrite Hdelta, Hlate. split; reflexivity.
Qed.

Lemma refresh_sets_timed_out_witness :
  let waiting := perform_all (Sample.citest 9)
                   [DoSetTimeoutDelta (timedelta_of_seconds 1); DoWait 1300000]
                   (Sample.fresh_status, Sample.after_init) in
  finished_ok (fst waiting) = false
  /\ timed_out (fst waiting) = false
  /\ timed_out (fst (fst (refresh (Sample.citest 9) (fst waiting) (snd waiting)))) = true
  /\ finished (fst (fst (refresh (Sample.citest 9) (fst waiting) (snd waiting)))) = true.
Proof.
  intros waiting.
  split; [reflexivity|]. split; [reflexivity|].
  refine (proj2 (proj2 (refresh_sets_timed_out (Sample.citest 9)))
            (fst waiting) (snd waiting) _ _ _ _ _ _ _);
    vm_compute; reflexivity.
Defined.

(** C10. On a status that has timed out without [finished_ok], a [refresh]
    during which the delegate comes to report [finished_ok] sets
    [finished_ok] and leaves [timed_out] true: both flags are then true on
    the same status. *)
Theorem finished_ok_after_timed_out
    {D R : Type} (ct : Citest D R) (st : GcsPubsubTriggerOperationStatus D R)
    (w : World) (d : D) (t : datetime) :
  timed_out st = true ->
  finished_ok st = false ->
  trigger_refresh ct (__trigger_status st) (clock w) = (d, Ok tt, t) ->
  trigger_finished_ok ct d = true ->
  finished_ok (fst (fst (refresh ct st w))) = true
  /\ timed_out (fst (fst (refresh ct st w))) = true
  /\ finished (fst (fst (refresh ct st w))) = true.
Proof.
  intros Htimed Hfin Hrefresh Hdone.
  rewrite (refresh_delegate_done ct st w d t Hfin Hrefresh Hdone).
  unfold finished, finished_ok, timed_out in *; simpl.
  rewrite Htimed. auto.
Qed.

Lemma finished_ok_after_timed_out_witness :
  GcsPubsubTriggerOperationStatus_init (Sample.citest 2) "pipelines/1" Sample.epoch
  = (Ok Sample.fresh_status, Sample.after_init)
  /\ let polled := perform_all (Sample.citest 2)
                     [DoSetTimeoutDelta (timedelta_of_seconds 1); DoWait 1300000;
                      DoRefresh]
                     (Sample.fresh_status, Sample.after_init) in
     timed_out (fst polled) = true
     /\ finished_ok (fst polled) = false
     /\ finished_ok (fst (fst (refresh (Sample.citest 2) (fst polled) (snd polled)))) = true
     /\ timed_out (fst (fst (refresh (Sample.citest 2) (fst polled) (snd polled)))) = true.
Proof.
  split; [vm_compute; reflexivity|].
  intros polled.
  assert (Htimed : timed_out (fst polled) = true) by (vm_compute; reflexivity).
  assert (Hfin : finished_ok (fst polled) = false) by (vm_compute; reflexivity).
  split; [exact Htimed|]. split; [exact Hfin|].
  pose (d := {| Sample.polls := 2; Sample.bound_id := "n/a";
                Sample.detail_path := "pipelines/1" |}).
  assert (Hrefresh : trigger_refresh (Sample.citest 2) (__trigger_status (fst polled))
                       (clock (snd polled)) = (d, Ok tt, 1700007))
    by (vm_compute; reflexivity).
  assert (Hdone : trigger_finished_ok (Sample.citest 2) d = true) by reflexivity.
  destruct (finished_ok_after_timed_out (Sample.citest 2) (fst polled) (snd polled)
              d 1700007 Htimed Hfin Hrefresh Hdone) as (H1 & H2 & _).
  split; [exact H1 | exact H2].
Defined.

(** C8, as the claim has it, fails: the clock is read for [__start] after
    the lookup has come back, not before it goes out. With a lookup that
    takes 7 microseconds and is issued at time 0, the start is 7. *)
Lemma start_recorded_before_lookup_counterexample :
  GcsPubsubTriggerOperationStatus_init (Sample.citest 1) "pipelines/1" Sample.epoch
  = (Ok Sample.fresh_status, Sample.after_init)
  /\ issued_before Utcnow (Get "pipelines/1") (history Sample.after_init) = false
  /\ issued_before (Get "pipelines/1") Utcnow (history Sample.after_init) = true
  /\ ~ (forall t, (t, Get "pipelines/1") ∈ history Sample.after_init ->
                  __start Sample.fresh_status <= t).
Proof.
  split; [vm_compute; reflexivity|].
  split; [vm_compute; reflexivity|].
  split; [vm_compute; reflexivity|].
  intros H. specialize (H 0).
  assert (Hin : (0, Get "pipelines/1") ∈ history Sample.after_init).
  { simpl. do 5 apply list_elem_of_further. apply list_elem_of_here. }
  specialize (H Hin). simpl in H. lia.
Qed.

(** C8, amended. Construction issues exactly one lookup, [get(status_path)],
    keeps its response as the trigger response, and only when the lookup
    has come back reads the clock for the start time; the status begins
    with [finished_ok] and [timed_out] false and a timeout of 5 minutes. *)
Theorem init_looks_up_then_reads_clock
    {D R : Type} (ct : Citest D R) (status_path : string) (w : World)
    (response : R) (t : datetime) :
  gate_get ct status_path (clock w) = (Ok response, t) ->
  exists st w',
    GcsPubsubTriggerOperationStatus_init ct status_path w = (Ok st, w')
    /\ history w'
       = history w ++ [(clock w, BindAgent); (clock w, SuperInit); (clock w, StatusClass);
                       (clock w, BindId "n/a"); (clock w, BindDetailPath status_path);
                       (clock w, Get status_path); (t, Utcnow)]
    /\ __trigger_response st = response
    /\ __start st = t
    /\ finished_ok st = false
    /\ timed_out st = false
    /\ timeout_delta st = timedelta_of_minutes 5.
Proof.
  intros Hget. unfold GcsPubsubTriggerOperationStatus_init. simpl.
  rewrite Hget. simpl. eexists _, _. split; [reflexivity|]. simpl.
  rewrite <- !app_assoc. simpl. repeat split; reflexivity.
Qed.

Lemma init_looks_up_then_reads_clock_witness :
  gate_get (Sample.citest 1) "pipelines/1" (clock Sample.epoch)
  = (Ok "200 OK pipelines/1", 7)
  /\ exists st w',
      GcsPubsubTriggerOperationStatus_init (Sample.citest 1) "pipelines/1" Sample.epoch
      = (Ok st, w')
      /\ __start st = 7.
Proof.
  assert (Hget : gate_get (Sample.citest 1) "pipelines/1" (clock Sample.epoch)
                 = (Ok "200 OK pipelines/1", 7)) by reflexivity.
  split; [exact Hget|].
  destruct (init_looks_up_then_reads_clock (Sample.citest 1) "pipelines/1" Sample.epoch
              "200 OK pipelines/1" 7 Hget) as (st & w' & Hinit & _ & _ & Hstart & _).
  exists st, w'. split; [exact Hinit | exact Hstart].
Defined.

(** * Further properties of [BuildDebianCommand] *)

Section MoreArguments.

Variables (bt : Buildtool) (os : Os).

Lemma init_arg_not_cache_arg (path : string) :
  "-I gradle/init-publish.gradle" <> "--gradle-user-home=" +:+ path.
Proof. simpl. discriminate. Qed.

Lemma append_step (c : ascii) (a b : string) : String c a +:+ b = String c (a +:+ b).
Proof. reflexivity. Qed.

Lemma append_assoc (a b c : string) : (a +:+ b) +:+ c = a +:+ (b +:+ c).
Proof.
  induction a as [|x a IH]; [reflexivity|].
  rewrite !append_step, IH. reflexivity.
Qed.

Lemma ends_with_slash_append (a b : string) :
  str_truthy b = true -> ends_with_slash (a +:+ b) = ends_with_slash b.
Proof.
  intros Hb. induction a as [|x a IH]; [reflexivity|].
  rewrite append_step. simpl. rewrite IH.
  destruct (a +:+ b) eqn:Hab; [|reflexivity].
  destruct a; [|discriminate Hab]. change (b = "") in Hab. subst b. discriminate Hb.
Qed.

Lemma str_truthy_append (a b : string) :
  str_truthy b = true -> str_truthy (a +:+ b) = true.
Proof. intros Hb. destruct a; [exact Hb | reflexivity]. Qed.

(** The file that the third [if] of [_do_repository] looks for. *)
Lemma init_script_path_plain (dir : string) :
  str_truthy dir = true -> ends_with_slash dir = false ->
  os_path_join dir ["gradle"; "init-publish.gradle"]
  = dir +:+ "/gradle/init-publish.gradle".
Proof.
  intros Hdir Hslash. unfold os_path_join. simpl.
  unfold join_step at 2. simpl. rewrite Hdir, Hslash. simpl.
  unfold join_step. simpl.
  rewrite str_truthy_append by reflexivity.
  rewrite <- append_assoc, ends_with_slash_append by reflexivity. simpl.
  rewrite !append_assoc. reflexivity.
Qed.

Lemma init_script_path_slash (dir : string) :
  ends_with_slash dir = true ->
  os_path_join dir ["gradle"; "init-publish.gradle"]
  = dir +:+ "gradle/init-publish.gradle".
Proof.
  intros Hslash. unfold os_path_join. simpl.
  unfold join_step at 2. simpl. rewrite Hslash, orb_true_r.
  unfold join_step. simpl.
  rewrite str_truthy_append by reflexivity.
  rewrite ends_with_slash_append by reflexivity. simpl.
  rewrite !append_assoc. reflexivity.
Qed.

End MoreArguments.

(** X1. [_do_can_skip_repository] skips [spin] whatever the collaborators
    say, and any other repository exactly when [consider_debian_on_bintray]
    accepts the build version that the source code manager reports. *)
Theorem can_skip_iff bt this repository :
  _do_can_skip_repository bt this repository = true
  <-> name repository = "spin"
      \/ consider_debian_on_bintray bt repository
           (get_repository_service_build_version bt repository) = true.
Proof.
  unfold _do_can_skip_repository, NON_DEBIAN_BOM_REPOSITORIES.
  destruct (bool_decide (name repository ∈ ["spin"])) eqn:Hin.
  - apply bool_decide_eq_true in Hin. apply list_elem_of_singleton in Hin. tauto.
  - apply bool_decide_eq_false in Hin. rewrite list_elem_of_singleton in Hin.
    split; [auto | intros [H|H]; [contradiction | exact H]].
Qed.

(** X2. The assembled list starts with the runner's common arguments and
    ends with its debian arguments, unchanged and in full; between them
    come at most the cache argument, ['-x test'] and the init script
    argument, in this order. *)
Theorem args_between_runner_lists bt os opts repository :
  exists middle,
    _do_repository_args bt os opts repository
    = get_common_args bt ++ middle ++ get_debian_args bt "trusty,xenial,bionic"
    /\ middle `sublist_of`
         ["--gradle-user-home=" +:+ default "" (gradle_cache_path opts);
          "-x test"; "-I gradle/init-publish.gradle"].
Proof.
  unfold _do_repository_args.
  set (skip := negb (run_unit_tests opts) || _).
  set (script := isfile os _).
  exists ((match gradle_cache_path opts with
           | Some path => if str_truthy path then ["--gradle-user-home=" +:+ path] else []
           | None => []
           end)
          ++ (if skip then ["-x test"] else [])
          ++ (if script then ["-I gradle/init-publish.gradle"] else [])).
  destruct (gradle_cache_path opts) as [path|]; [destruct (str_truthy path)|];
    destruct skip, script; simpl; rewrite <- ?app_assoc; simpl;
    (split; [reflexivity|]);
    repeat first [apply sublist_nil | apply sublist_skip | apply sublist_cons].
Qed.

(** X3. A non-empty [gradle_cache_path] puts ['--gradle-user-home=' + path]
    on the list; an empty one adds nothing, exactly as when the option is
    not set. *)
Theorem cache_path_argument bt os opts repository :
  (forall path, gradle_cache_path opts = Some path -> path <> "" ->
                "--gradle-user-home=" +:+ path ∈ _do_repository_args bt os opts repository)
  /\ (forall opts', gradle_cache_path opts = Some "" ->
                    gradle_cache_path opts' = None ->
                    run_unit_tests opts' = run_unit_tests opts ->
                    _do_repository_args bt os opts repository
                    = _do_repository_args bt os opts' repository).
Proof.
  split.
  - intros path Hpath Hne. unfold _do_repository_args. rewrite Hpath.
    destruct path as [|c path]; [contradiction|]. simpl str_truthy. cbv iota.
    destruct (negb (run_unit_tests opts) || _); destruct (isfile os _);
      rewrite ?elem_of_app, ?list_elem_of_singleton; tauto.
  - intros opts' Hempty Hnone Htests. unfold _do_repository_args.
    rewrite Hempty, Hnone, Htests. reflexivity.
Qed.

Lemma cache_path_argument_witness :
  gradle_cache_path Sample.opts_no_tests = Some "/cache"
  /\ "--gradle-user-home=/cache"
       ∈ _do_repository_args Sample.buildtool Sample.host Sample.opts_no_tests Sample.deck.
Proof.
  split; [reflexivity|].
  apply (proj1 (cache_path_argument Sample.buildtool Sample.host Sample.opts_no_tests
                  Sample.deck) "/cache"); [reflexivity | discriminate].
Defined.

(** X4. Provided the runner's own lists do not carry it, the init script
    argument is on the list exactly when [gradle/init-publish.gradle] is a
    file under the repository's [git_dir]; the path looked at is [git_dir],
    a slash unless [git_dir] already ends in one, and
    [gradle/init-publish.gradle]. *)
Theorem init_script_argument bt os opts repository :
  ("-I gradle/init-publish.gradle" ∉ get_common_args bt) ->
  ("-I gradle/init-publish.gradle" ∉ get_debian_args bt "trusty,xenial,bionic") ->
  ("-I gradle/init-publish.gradle" ∈ _do_repository_args bt os opts repository
   <-> isfile os (os_path_join (git_dir repository) ["gradle"; "init-publish.gradle"]) = true)
  /\ (git_dir repository <> "" -> ends_with_slash (git_dir repository) = false ->
      os_path_join (git_dir repository) ["gradle"; "init-publish.gradle"]
      = git_dir repository +:+ "/gradle/init-publish.gradle")
  /\ (ends_with_slash (git_dir repository) = true ->
      os_path_join (git_dir repository) ["gradle"; "init-publish.gradle"]
      = git_dir repository +:+ "gradle/init-publish.gradle").
Proof.
  intros Hcommon Hdebian. split; [|split].
  - unfold _do_repository_args.
    destruct (isfile os _);
      destruct (negb (run_unit_tests opts) || _);
      destruct (gradle_cache_path opts) as [path|];
      try destruct (str_truthy path);
      rewrite ?elem_of_app, ?list_elem_of_singleton;
      pose proof init_arg_not_cache_arg;
      intuition (try discriminate; eauto; try congruence).
  - intros Hne Hslash. apply init_script_path_plain; [|exact Hslash].
    destruct (git_dir repository); [contradiction | reflexivity].
  - apply init_script_path_slash.
Qed.

Lemma init_script_argument_witness :
  let checkout := {| environ := ∅;
                     isfile := fun path =>
                       String.eqb path "/src/deck/gradle/init-publish.gradle" |} in
  ("-I gradle/init-publish.gradle" ∉ get_common_args Sample.buildtool)
  /\ ("-I gradle/init-publish.gradle"
        ∉ get_debian_args Sample.buildtool "trusty,xenial,bionic")
  /\ ("-I gradle/init-publish.gradle"
        ∈ _do_repository_args Sample.buildtool checkout Sample.opts Sample.deck)
  /\ os_path_join (git_dir Sample.deck) ["gradle"; "init-publish.gradle"]
     = "/src/deck/gradle/init-publish.gradle".
Proof.
  intros checkout.
  assert (Hcommon : "-I gradle/init-publish.gradle" ∉ get_common_args Sample.buildtool).
  { simpl. rewrite !not_elem_of_cons. repeat split; try discriminate. apply not_elem_of_nil. }
  assert (Hdebian : "-I gradle/init-publish.gradle"
                      ∉ get_debian_args Sample.buildtool "trusty,xenial,bionic").
  { simpl. rewrite !not_elem_of_cons. repeat split; try discriminate. apply not_elem_of_nil. }
  split; [exact Hcommon|]. split; [exact Hdebian|].
  destruct (init_script_argument Sample.buildtool checkout Sample.opts Sample.deck
              Hcommon Hdebian) as (Hiff & Hplain & _).
  split.
  - apply Hiff. vm_compute. reflexivity.
  - rewrite Hplain; [reflexivity | discriminate | reflexivity].
Defined.

Section MoreConstruction.

Variables (bt : Buildtool) (os : Os).

Lemma opt_truthy_true (o : option string) :
  opt_truthy o = true <-> exists s, o = Some s /\ s <> "".
Proof.
  destruct o as [[|c s]|]; simpl; split; try discriminate.
  - intros (s & [= <-] & Hne). contradiction.
  - intros _. eexists; split; [reflexivity | discriminate].
  - intros _. reflexivity.
  - intros (s & H & _). discriminate H.
Qed.

Lemma opt_truthy_false (o : option string) :
  opt_truthy o = false <-> o = None \/ o = Some "".
Proof.
  destruct o as [[|c s]|]; simpl; split; auto; try discriminate.
  intros [H|H]; discriminate H.
Qed.

(** The run of [_do_repository] when the gate is free, in full. *)
Lemma _do_repository_free (repository : Repository) (s : Proc) :
  0 < _value (__semaphore (self s)) ->
  let args := _do_repository_args bt os (options (self s)) repository in
  let s' := {| self := self s;
               trace := trace s ++ [Acquired;
                                    CheckRun args repository "candidate" "debian-build";
                                    Released] |} in
  _do_repository bt os repository s
  = match check_run bt args repository "candidate" "debian-build" with
    | Ok _ => Returned tt s'
    | Raise e => Raised e s'
    end.
Proof.
  intros Hfree args s'. subst s'.
  unfold _do_repository, bind, get_self.
  rewrite with_semaphore_free by exact Hfree.
  fold args.
  unfold try_finally, gradle_check_run, bind, semaphore_exit, ret, raise, log, put_semaphore.
  destruct s as [[o sem] tr]; simpl in *.
  destruct (check_run bt args repository "candidate" "debian-build") as [[]|e];
    simpl; rewrite semaphore_back, <- !app_assoc; reflexivity.
Qed.

End MoreConstruction.

(** X5. When [__init__] returns an instance, [BINTRAY_KEY] and
    [BINTRAY_USER] are in the environment and not empty, [max_local_builds]
    is not negative, the semaphore counter is [max_local_builds], and the
    instance holds the caller's options object. *)
Theorem constructed_command_has bt os opts opts' this :
  BuildDebianCommand_init bt os opts = (opts', Ok this) ->
  (exists key, environ os !! "BINTRAY_KEY" = Some key /\ key <> "")
  /\ (exists user, environ os !! "BINTRAY_USER" = Some user /\ user <> "")
  /\ 0 <= max_local_builds (options this)
  /\ _value (__semaphore this) = max_local_builds (options this)
  /\ options this = opts'.
Proof.
  intros Hinit.
  destruct (init_ok_inv _ _ _ _ _ Hinit) as (Hopts & Hpos & Hsem & Hkey & Huser & _).
  apply opt_truthy_true in Hkey, Huser.
  rewrite Hsem. simpl. auto.
Qed.

Lemma constructed_command_has_witness :
  BuildDebianCommand_init Sample.buildtool Sample.host Sample.opts
  = (set_github_disable_upstream_push true Sample.opts, Ok Sample.command)
  /\ _value (__semaphore Sample.command) = max_local_builds (options Sample.command).
Proof.
  assert (Hinit : BuildDebianCommand_init Sample.buildtool Sample.host Sample.opts
                  = (set_github_disable_upstream_push true Sample.opts, Ok Sample.command))
    by (vm_compute; reflexivity).
  split; [exact Hinit|].
  apply (constructed_command_has _ _ _ _ _ Hinit).
Defined.

(** X6. Once the base class initialiser has returned and the semaphore is
    built, a [BINTRAY_KEY] that is unset or empty makes [__init__] raise
    ['Expected BINTRAY_KEY set.'], whatever else is configured; with the
    key in place, a [BINTRAY_USER] that is unset or empty makes it raise
    ['Expected BINTRAY_USER set.']. *)
Theorem init_rejects_empty_credentials bt os opts checked :
  GradleCommandProcessor_init bt (set_github_disable_upstream_push true opts)
  = (checked, Ok tt) ->
  0 <= max_local_builds checked ->
  (environ os !! "BINTRAY_KEY" = None \/ environ os !! "BINTRAY_KEY" = Some "" ->
   BuildDebianCommand_init bt os opts
   = (checked, Raise (ConfigError "Expected BINTRAY_KEY set.")))
  /\ ((exists key, environ os !! "BINTRAY_KEY" = Some key /\ key <> "") ->
      environ os !! "BINTRAY_USER" = None \/ environ os !! "BINTRAY_USER" = Some "" ->
      BuildDebianCommand_init bt os opts
      = (checked, Raise (ConfigError "Expected BINTRAY_USER set."))).
Proof.
  intros Hbase Hpos. apply Z.ltb_ge in Hpos.
  unfold BuildDebianCommand_init. rewrite Hbase. unfold Semaphore_new. rewrite Hpos.
  split.
  - intros Hkey. apply opt_truthy_false in Hkey. rewrite Hkey. reflexivity.
  - intros Hkey Huser. apply opt_truthy_true in Hkey. apply opt_truthy_false in Huser.
    rewrite Hkey, Huser. reflexivity.
Qed.

Lemma init_rejects_empty_credentials_witness :
  let blank := {| environ := <["BINTRAY_KEY" := ""]> (<["BINTRAY_USER" := "builder"]> ∅);
                  isfile := fun _ => false |} in
  environ blank !! "BINTRAY_KEY" = Some ""
  /\ BuildDebianCommand_init Sample.buildtool blank Sample.opts
     = (set_github_disable_upstream_push true Sample.opts,
        Raise (ConfigError "Expected BINTRAY_KEY set.")).
Proof.
  intros blank.
  assert (Hkey : environ blank !! "BINTRAY_KEY" = Some "") by (vm_compute; reflexivity).
  split; [exact Hkey|].
  apply (init_rejects_empty_credentials Sample.buildtool blank Sample.opts
           (set_github_disable_upstream_push true Sample.opts));
    [reflexivity | simpl; lia | right; exact Hkey].
Defined.

(** X7. When the base class initialiser has returned and [max_local_builds]
    is negative, [__init__] raises the semaphore's [ValueError], whatever
    credentials and options are there. *)
Theorem init_negative_max_local_builds bt os opts checked :
  GradleCommandProcessor_init bt (set_github_disable_upstream_push true opts)
  = (checked, Ok tt) ->
  max_local_builds checked < 0 ->
  BuildDebianCommand_init bt os opts
  = (checked, Raise (ValueError "semaphore initial value must be >= 0")).
Proof.
  intros Hbase Hneg. apply Z.ltb_lt in Hneg.
  unfold BuildDebianCommand_init. rewrite Hbase. unfold Semaphore_new. rewrite Hneg.
  reflexivity.
Qed.

Lemma init_negative_max_local_builds_witness :
  max_local_builds (set_github_disable_upstream_push true Sample.opts_negative_builds) < 0
  /\ BuildDebianCommand_init Sample.buildtool Sample.host Sample.opts_negative_builds
     = (set_github_disable_upstream_push true Sample.opts_negative_builds,
        Raise (ValueError "semaphore initial value must be >= 0")).
Proof.
  assert (Hneg : max_local_builds
                   (set_github_disable_upstream_push true Sample.opts_negative_builds) < 0)
    by (simpl; lia).
  split; [exact Hneg|].
  apply (init_negative_max_local_builds Sample.buildtool Sample.host
           Sample.opts_negative_builds _ eq_refl Hneg).
Defined.

(** X8. Two [_do_repository] calls one after the other on an instance whose
    gate is free: each acquires, builds and releases in turn, and the
    semaphore ends as it began, also when the first build raises; a failed
    build takes no permit away from the next one. *)
Theorem two_calls_in_turn bt os first second s :
  0 < _value (__semaphore (self s)) ->
  let after_first := final (_do_repository bt os first s) in
  let after_second := final (_do_repository bt os second after_first) in
  trace after_second
  = trace s
    ++ [Acquired;
        CheckRun (_do_repository_args bt os (options (self s)) first) first
          "candidate" "debian-build";
        Released;
        Acquired;
        CheckRun (_do_repository_args bt os (options (self s)) second) second
          "candidate" "debian-build";
        Released]
  /\ self after_second = self s.
Proof.
  intros Hfree after_first after_second.
  assert (Hfirst : after_first
                   = {| self := self s;
                        trace := trace s
                          ++ [Acquired;
                              CheckRun (_do_repository_args bt os (options (self s)) first)
                                first "candidate" "debian-build";
                              Released] |}).
  { subst after_first. rewrite (_do_repository_free bt os first s Hfree).
    destruct (check_run bt _ first _ _) as [[]|e]; reflexivity. }
  subst after_second. rewrite Hfirst.
  match goal with |- context [_do_repository bt os second ?s1] =>
    rewrite (_do_repository_free bt os second s1 Hfree)
  end. simpl.
  destruct (check_run bt _ second _ _) as [[]|e]; simpl;
    rewrite <- !app_assoc; auto.
Qed.

Lemma two_calls_in_turn_witness :
  let s := {| self := Sample.command; trace := [] |} in
  0 < _value (__semaphore (self s))
  /\ self (final (_do_repository Sample.buildtool Sample.host Sample.deck
                    (final (_do_repository Sample.buildtool Sample.host Sample.orca s))))
     = Sample.command.
Proof.
  intros s.
  assert (Hfree : 0 < _value (__semaphore (self s))) by (simpl; lia).
  split; [exact Hfree|].
  apply (two_calls_in_turn Sample.buildtool Sample.host Sample.orca Sample.deck s Hfree).
Defined.

Section MoreGate.

Lemma count_nonneg f (l : list phase) : 0 <= count f l.
Proof. induction l as [|p l IH]; simpl; [lia | destruct (f p); lia]. Qed.

Lemma sample_command_init :
  BuildDebianCommand_init Sample.buildtool Sample.host Sample.opts
  = (set_github_disable_upstream_push true Sample.opts, Ok Sample.command).
Proof. vm_compute. reflexivity. Defined.

Lemma sample_idle_command_init :
  BuildDebianCommand_init Sample.buildtool Sample.host Sample.opts_no_builds
  = (set_github_disable_upstream_push true Sample.opts_no_builds, Ok Sample.idle_command).
Proof. vm_compute. reflexivity. Defined.

End MoreGate.

(** ** The dispatch run that [_do_repository] gives rise to *)

Section Run.

Variables (bt : Buildtool) (os : Os) (this : BuildDebianCommand).

Lemma total_app {A : Type} (g : A -> Z) (l l' : list A) :
  total g (l ++ l') = total g l + total g l'.
Proof. induction l as [|x l IH]; simpl; [reflexivity | rewrite IH; lia]. Qed.

Lemma total_insert {A : Type} (g : A -> Z) (l : list A) (i : nat) (x y : A) :
  l !! i = Some x -> total g (<[i := y]> l) = total g l - g x + g y.
Proof.
  revert i; induction l as [|z l IH]; intros [|i] Hi; simpl in *; try discriminate.
  - injection Hi as ->. lia.
  - rewrite (IH _ Hi). lia.
Qed.

Lemma total_le {A : Type} (g h : A -> Z) (l : list A) :
  Forall (fun x => g x <= h x) l -> total g l <= total h l.
Proof. induction 1 as [|x l Hx _ IH]; simpl; lia. Qed.

Lemma total_zero {A : Type} (g : A -> Z) (l : list A) :
  Forall (fun x => g x = 0) l -> total g l = 0.
Proof. induction 1 as [|x l Hx _ IH]; simpl; lia. Qed.

Lemma total_positive {A : Type} (g : A -> Z) (l : list A) :
  0 < total g l -> exists i x, l !! i = Some x /\ 0 < g x.
Proof.
  induction l as [|x l IH]; simpl; [lia|].
  intros Hpos. destruct (Z_lt_le_dec 0 (g x)) as [Hx|Hx].
  - exists 0%nat, x. auto.
  - destruct IH as (i & y & Hi & Hy); [lia|]. exists (S i), y. auto.
Qed.

(** What the embedded method does, in its order: it acquires, builds and
    releases. This is where the run below takes its events from. *)
Lemma call_events_are (repository : Repository) :
  call_events bt os this repository
  = [Acquired;
     CheckRun (_do_repository_args bt os (options this) repository) repository
       "candidate" "debian-build";
     Released].
Proof.
  unfold call_events.
  rewrite (_do_repository_free bt os repository) by (simpl; lia). simpl.
  destruct (check_run bt _ repository _ _) as [[]|e]; reflexivity.
Qed.

(** The permit at hand in [call_events] is not special: from any state of
    the instance with the gate free, the method performs these events. *)
Lemma call_events_any_permit (repository : Repository) (s : Proc) :
  options (self s) = options this ->
  0 < _value (__semaphore (self s)) ->
  trace (final (_do_repository bt os repository s))
  = trace s ++ call_events bt os this repository.
Proof.
  intros Hopts Hfree. rewrite call_events_are, <- Hopts.
  rewrite (_do_repository_free bt os repository s Hfree).
  destruct (check_run bt _ repository _ _) as [[]|e]; reflexivity.
Qed.

Lemma arriving_on_its_way (repository : Repository) :
  on_its_way (at_rest (call_events bt os this repository)).
Proof.
  rewrite call_events_are. eexists _, _. left. split; reflexivity.
Qed.

Lemma on_its_way_owed (c : Flight) :
  on_its_way c -> (if running c then 1 else 0) <= owed (remaining c) <= 1.
Proof.
  intros (args & repository & [[-> ->]|[->|[[-> ->]|[-> ->]]]]); simpl;
    try destruct (running c); lia.
Qed.

Lemma move_keeps_balance capacity i f f' :
  move i f = Some f' -> floor_balanced capacity f -> floor_balanced capacity f'.
Proof.
  intros Hmove (Hpos & Hsum & Hway). unfold move in Hmove.
  destruct (flights f !! i) as [c|] eqn:Hi; [|discriminate].
  cbv beta iota in Hmove.
  pose proof (proj1 (Forall_lookup _ _) Hway i c Hi) as Hc.
  unfold floor_balanced, permits_out in *.
  destruct Hc as (args & repository & [[Hrem Hrun]|[Hrem|[[Hrem Hrun]|[Hrem Hrun]]]]).
  - rewrite Hrem, Hrun in Hmove. unfold acquire in Hmove.
    destruct (0 <? _value (shared f)) eqn:Hlt; [|discriminate].
    apply Z.ltb_lt in Hlt. injection Hmove as <-. simpl.
    rewrite (total_insert _ _ _ _ _ Hi), Hrem. simpl.
    repeat split; try lia.
    apply Forall_insert; [exact Hway|]. exists args, repository. right. left. reflexivity.
  - rewrite Hrem in Hmove. destruct (running c) eqn:Hrun;
      injection Hmove as <-; simpl;
      rewrite (total_insert _ _ _ _ _ Hi), ?Hrem; simpl;
      (repeat split; try lia); apply Forall_insert; try exact Hway.
    + exists args, repository. right. right. left. split; reflexivity.
    + exists args, repository. right. left. reflexivity.
  - rewrite Hrem, Hrun in Hmove. injection Hmove as <-. simpl.
    rewrite (total_insert _ _ _ _ _ Hi), Hrem. simpl.
    repeat split; try lia.
    apply Forall_insert; [exact Hway|]. exists args, repository. right. right. right.
    split; reflexivity.
  - rewrite Hrem in Hmove. discriminate Hmove.
Qed.

Lemma take_choice_keeps_balance capacity c f f' :
  take_choice bt os this f c = Some f' ->
  floor_balanced capacity f -> floor_balanced capacity f'.
Proof.
  destruct c as [repository|i]; simpl; [|apply move_keeps_balance].
  intros [= <-] (Hpos & Hsum & Hway). unfold floor_balanced, permits_out in *. simpl.
  rewrite total_app, call_events_are. simpl.
  repeat split; try lia.
  apply Forall_app. split; [exact Hway|].
  constructor; [|constructor]. rewrite <- call_events_are. apply arriving_on_its_way.
Qed.

Lemma follow_keeps_balance capacity schedule f f' :
  follow bt os this schedule f = Some f' ->
  floor_balanced capacity f -> floor_balanced capacity f'.
Proof.
  revert f; induction schedule as [|c later IH]; intros f; simpl.
  - intros [= <-]. auto.
  - destruct (take_choice bt os this f c) as [f1|] eqn:Hc; [|discriminate].
    intros Hlater Hbal. eapply IH; [exact Hlater|].
    eapply take_choice_keeps_balance; eassumption.
Qed.

Lemma run_balanced schedule f :
  0 <= _value (__semaphore this) ->
  follow bt os this schedule (floor_start this) = Some f ->
  floor_balanced (_value (__semaphore this)) f.
Proof.
  intros Hpos Hrun. eapply follow_keeps_balance; [exact Hrun|].
  unfold floor_balanced, permits_out. simpl. repeat split; try lia. constructor.
Qed.


End Run.



Section RunOn.

Variables (bt : Buildtool) (os : Os) (this : BuildDebianCommand).

Lemma permits_out_nonneg f :
  Forall on_its_way (flights f) -> 0 <= permits_out f.
Proof.
  intros Hway. unfold permits_out.
  rewrite <- (total_zero (fun _ : Flight => 0) (flights f))
    by (apply Forall_forall; reflexivity).
  apply total_le. eapply Forall_impl; [exact Hway|].
  intros c Hc. pose proof (on_its_way_owed c Hc). destruct (running c); lia.
Qed.

(** A call that has a permit out can always perform its next event. *)
Lemma holder_moves f j c :
  flights f !! j = Some c -> on_its_way c -> 0 < owed (remaining c) ->
  exists f', move j f = Some f'.
Proof.
  intros Hj (args & repository & [[Hrem Hrun]|[Hrem|[[Hrem Hrun]|[Hrem Hrun]]]]) Howed;
    rewrite Hrem in Howed; simpl in Howed; try lia;
    unfold move; rewrite Hj; cbv beta iota; rewrite Hrem.
  - destruct (running c); eexists; reflexivity.
  - rewrite Hrun. eexists; reflexivity.
Qed.


End RunOn.

(** X9. At every moment of a dispatch run whose calls go through the
    events of [_do_repository], the semaphore counter is [max_local_builds]
    minus the permits that calls have acquired and not yet released, and it
    lies between 0 and [max_local_builds]. *)
Theorem gate_counter_accounts bt os opts opts' this schedule f :
  BuildDebianCommand_init bt os opts = (opts', Ok this) ->
  follow bt os this schedule (floor_start this) = Some f ->
  _value (shared f) = max_local_builds (options this) - permits_out f
  /\ 0 <= _value (shared f) <= max_local_builds (options this).
Proof.
  intros Hinit Hrun.
  destruct (init_ok_inv _ _ _ _ _ Hinit) as (_ & Hpos & Hsem & _).
  destruct (run_balanced bt os this schedule f) as (Hleft & Hsum & Hway);
    [rewrite Hsem; exact Hpos | exact Hrun |].
  rewrite Hsem in Hsum; simpl in Hsum.
  pose proof (permits_out_nonneg f Hway). lia.
Qed.

Lemma gate_counter_accounts_witness :
  exists f,
    follow Sample.buildtool Sample.host Sample.command Sample.third_arrives
      (floor_start Sample.command) = Some f
    /\ permits_out f = 2
    /\ _value (shared f) = max_local_builds (options Sample.command) - permits_out f.
Proof.
  eexists. split; [vm_compute; reflexivity|]. split; [reflexivity|].
  apply (gate_counter_accounts Sample.buildtool Sample.host Sample.opts _
           Sample.command Sample.third_arrives _ sample_command_init).
  vm_compute. reflexivity.
Defined.



(** X11. When no call of a dispatch run has a permit out, each being still
    before the [Acquired] of [_do_repository] or past its [Released], the
    semaphore counter is back at [max_local_builds], whether the builds
    returned or raised. *)
Theorem gate_restored_after_run bt os opts opts' this schedule f :
  BuildDebianCommand_init bt os opts = (opts', Ok this) ->
  follow bt os this schedule (floor_start this) = Some f ->
  Forall (fun c => owed (remaining c) = 0) (flights f) ->
  _value (shared f) = max_local_builds (options this).
Proof.
  intros Hinit Hrun Hnone.
  destruct (init_ok_inv _ _ _ _ _ Hinit) as (_ & Hpos & Hsem & _).
  destruct (run_balanced bt os this schedule f) as (Hleft & Hsum & Hway);
    [rewrite Hsem; exact Hpos | exact Hrun |].
  rewrite Hsem in Hsum; simpl in Hsum.
  unfold permits_out in Hsum. rewrite (total_zero _ _ Hnone) in Hsum. lia.
Qed.

Lemma gate_restored_after_run_witness :
  exists f,
    follow Sample.buildtool Sample.host Sample.command Sample.both_left
      (floor_start Sample.command) = Some f
    /\ flights f = [at_rest []; at_rest []]
    /\ _value (shared f) = max_local_builds (options Sample.command).
Proof.
  eexists. split; [vm_compute; reflexivity|]. split; [reflexivity|].
  apply (gate_restored_after_run Sample.buildtool Sample.host Sample.opts _
           Sample.command Sample.both_left _ sample_command_init).
  - vm_compute. reflexivity.
  - repeat constructor.
Defined.

(** X12. With [max_local_builds] at least 1 a dispatch run cannot get
    stuck: as long as some call has events of [_do_repository] left, one of
    the calls in flight can perform its next event. *)
Theorem dispatch_can_go_on bt os opts opts' this schedule f i c :
  BuildDebianCommand_init bt os opts = (opts', Ok this) ->
  1 <= max_local_builds (options this) ->
  follow bt os this schedule (floor_start this) = Some f ->
  flights f !! i = Some c ->
  remaining c <> [] ->
  exists j f', take_choice bt os this f (Move j) = Some f'.
Proof.
  intros Hinit Hone Hrun Hi Hleft.
  destruct (init_ok_inv _ _ _ _ _ Hinit) as (_ & Hpos & Hsem & _).
  destruct (run_balanced bt os this schedule f) as (Hnonneg & Hsum & Hway);
    [rewrite Hsem; exact Hpos | exact Hrun |].
  rewrite Hsem in Hsum; simpl in Hsum.
  pose proof (proj1 (Forall_lookup _ _) Hway i c Hi) as Hc.
  assert (Hholder : 0 < owed (remaining c) -> exists j f', move j f = Some f').
  { intros Howed. exists i. eapply holder_moves; eassumption. }
  destruct Hc as (args & repository & [[Hrem Hrun']|[Hrem|[[Hrem Hrun']|[Hrem _]]]]).
  - destruct (Z_lt_le_dec 0 (_value (shared f))) as [Hfree|Hbusy].
    + exists i. unfold take_choice, move. rewrite Hi. cbv beta iota.
      rewrite Hrem, Hrun'. unfold acquire.
      apply Z.ltb_lt in Hfree. rewrite Hfree. eexists; reflexivity.
    + assert (Hout : 0 < permits_out f) by lia.
      destruct (total_positive _ _ Hout) as (j & c' & Hj & Hc').
      exists j. eapply holder_moves; [exact Hj | | exact Hc'].
      exact (proj1 (Forall_lookup _ _) Hway j c' Hj).
  - apply Hholder. rewrite Hrem. simpl. lia.
  - apply Hholder. rewrite Hrem. simpl. lia.
  - contradiction.
Qed.

Lemma dispatch_can_go_on_witness :
  1 <= max_local_builds (options Sample.command)
  /\ exists f,
      follow Sample.buildtool Sample.host Sample.command Sample.third_arrives
        (floor_start Sample.command) = Some f
      /\ take_choice Sample.buildtool Sample.host Sample.command f (Move 2) = None
      /\ exists j f',
          take_choice Sample.buildtool Sample.host Sample.command f (Move j) = Some f'.
Proof.
  assert (Hone : 1 <= max_local_builds (options Sample.command)) by (simpl; lia).
  split; [exact Hone|].
  eexists. split; [vm_compute; reflexivity|]. split; [vm_compute; reflexivity|].
  refine (dispatch_can_go_on Sample.buildtool Sample.host Sample.opts _
            Sample.command Sample.third_arrives _ 2%nat _ sample_command_init Hone _ _ _);
    [vm_compute; reflexivity | vm_compute; reflexivity | vm_compute; discriminate].
Defined.

(** X13. An instance built with [max_local_builds = 0] never runs a build:
    in a dispatch run no call is ever inside [check_run], and a
    [_do_repository] call waits at its [with] statement without having
    called anything. *)
Theorem no_builds_with_zero_permits bt os opts opts' this d repository tr :
  BuildDebianCommand_init bt os opts = (opts', Ok this) ->
  max_local_builds (options this) = 0 ->
  reachable this d ->
  executing d = 0
  /\ _do_repository bt os repository {| self := this; trace := tr |}
     = Waiting {| self := this; trace := tr |}.
Proof.
  intros Hinit Hzero Hreach.
  destruct (init_ok_inv _ _ _ _ _ Hinit) as (_ & Hpos & Hsem & _).
  destruct (reachable_balanced this d) as [Hleft Hsum];
    [rewrite Hsem; exact Hpos | exact Hreach |].
  rewrite Hsem in Hsum; simpl in Hsum.
  split.
  - unfold executing.
    pose proof (count_in_check_run_le (in_flight d)).
    pose proof (count_nonneg in_check_run (in_flight d)). lia.
  - apply _do_repository_waits. simpl. rewrite Hsem. simpl. lia.
Qed.

Lemma no_builds_with_zero_permits_witness :
  max_local_builds (options Sample.idle_command) = 0
  /\ _do_repository Sample.buildtool Sample.host Sample.deck
       {| self := Sample.idle_command; trace := [] |}
     = Waiting {| self := Sample.idle_command; trace := [] |}.
Proof.
  assert (Hzero : max_local_builds (options Sample.idle_command) = 0) by reflexivity.
  split; [exact Hzero|].
  apply (no_builds_with_zero_permits Sample.buildtool Sample.host Sample.opts_no_builds
           _ Sample.idle_command (dispatch_start Sample.idle_command) Sample.deck []
           sample_idle_command_init Hzero).
  apply rtc_refl.
Defined.

(** * Further properties of [GcsPubsubTriggerOperationStatus] *)

Section MorePolling.

Context {D R : Type}.
Variable ct : Citest D R.
Implicit Type st : GcsPubsubTriggerOperationStatus D R.
Implicit Type w : World.

Lemma refresh_delegate_raises st w d e t :
  finished_ok st = false ->
  trigger_refresh ct (__trigger_status st) (clock w) = (d, Raise e, t) ->
  refresh ct st w
  = (set_trigger_status d st, Raise e, at_clock t (issue TriggerRefresh w)).
Proof.
  unfold finished_ok, refresh. intros -> Hrefresh.
  simpl. rewrite Hrefresh. reflexivity.
Qed.

(** [refresh] writes the delegate and the two flags, nothing else. *)
Lemma refresh_keeps_fields st w :
  __start (fst (fst (refresh ct st w))) = __start st
  /\ __trigger_response (fst (fst (refresh ct st w))) = __trigger_response st
  /\ __status_path (fst (fst (refresh ct st w))) = __status_path st
  /\ __timeout_delta (fst (fst (refresh ct st w))) = __timeout_delta st.
Proof.
  unfold refresh.
  destruct (__finished_ok st); [auto|].
  simpl. destruct (trigger_refresh ct _ _) as [[d [[]|e]] t]; simpl; [|auto].
  destruct (trigger_finished_ok ct d); simpl; auto.
Qed.

Lemma perform_all_keeps_fields (actions : list action) st w :
  __start (fst (perform_all ct actions (st, w))) = __start st
  /\ __trigger_response (fst (perform_all ct actions (st, w))) = __trigger_response st
  /\ __status_path (fst (perform_all ct actions (st, w))) = __status_path st.
Proof.
  revert st w; induction actions as [|a actions IH]; intros st w; simpl; [auto|].
  destruct a as [|val|d]; simpl.
  - destruct (refresh_keeps_fields st w) as (H1 & H2 & H3 & _).
    destruct (refresh ct st w) as [[st' r] w']; simpl in *.
    destruct (IH st' w') as (? & ? & ?). repeat split; congruence.
  - destruct (IH (set_timeout_delta val st) w) as (? & ? & ?). auto.
  - destruct (IH st (at_clock (clock w + d) w)) as (? & ? & ?). auto.
Qed.

Lemma times_issued_app (c : call) (h h' : list (datetime * call)) :
  times_issued c (h ++ h') = (times_issued c h + times_issued c h')%nat.
Proof. unfold times_issued. rewrite filter_app, length_app. reflexivity. Qed.

(** What one [refresh] adds to the history. *)
Lemma refresh_issues st w :
  times_issued TriggerRefresh (history (snd (refresh ct st w)))
  = (times_issued TriggerRefresh (history w) + (if finished_ok st then 0 else 1))%nat
  /\ (times_issued Utcnow (history (snd (refresh ct st w)))
      <= times_issued Utcnow (history w) + 1)%nat.
Proof.
  unfold refresh, finished_ok.
  destruct (__finished_ok st); simpl; [lia|].
  destruct (trigger_refresh ct _ _) as [[d [[]|e]] t]; simpl.
  - destruct (trigger_finished_ok ct d); simpl;
      rewrite ?times_issued_app; unfold times_issued; simpl; lia.
  - rewrite ?times_issued_app; unfold times_issued; simpl; lia.
Qed.

Lemma perform_all_issues (actions : list action) st w :
  (times_issued TriggerRefresh (history (snd (perform_all ct actions (st, w))))
   <= times_issued TriggerRefresh (history w) + length (filter (fun a => is_refresh a = true) actions))%nat.
Proof.
  revert st w; induction actions as [|a actions IH]; intros st w; [simpl; lia|].
  change (perform_all ct (a :: actions) (st, w))
    with (perform_all ct actions (perform ct (st, w) a)).
  destruct a as [|val|d].
  - rewrite filter_cons_True by reflexivity.
    destruct (refresh_issues st w) as [Hone _].
    unfold perform.
    destruct (refresh ct st w) as [[st' r] w']; simpl in Hone.
    specialize (IH st' w'). simpl length.
    destruct (finished_ok st); lia.
  - rewrite filter_cons_False by discriminate. apply IH.
  - rewrite filter_cons_False by discriminate. apply (IH st (at_clock (clock w + d) w)).
Qed.

End MorePolling.

(** X14. When the delegate's [refresh] raises, [refresh] raises the same
    error: [finished_ok] and [timed_out] are as before, the clock is not
    read, and the delegate's [finished_ok] is not asked for. *)
Theorem refresh_passes_delegate_error
    {D R : Type} (ct : Citest D R) (st : GcsPubsubTriggerOperationStatus D R)
    (w : World) (d : D) (e : exn) (t : datetime) :
  finished_ok st = false ->
  trigger_refresh ct (__trigger_status st) (clock w) = (d, Raise e, t) ->
  snd (fst (refresh ct st w)) = Raise e
  /\ finished_ok (fst (fst (refresh ct st w))) = false
  /\ timed_out (fst (fst (refresh ct st w))) = timed_out st
  /\ history (snd (refresh ct st w)) = history w ++ [(clock w, TriggerRefresh)].
Proof.
  intros Hfin Hrefresh.
  rewrite (refresh_delegate_raises ct st w d e t Hfin Hrefresh). simpl. auto.
Qed.

Lemma refresh_passes_delegate_error_witness :
  snd (fst (refresh Sample.citest_unreachable Sample.fresh_status Sample.after_init))
  = Raise (OtherError "connection refused")
  /\ timed_out (fst (fst (refresh Sample.citest_unreachable Sample.fresh_status
                            Sample.after_init))) = false.
Proof.
  destruct (refresh_passes_delegate_error Sample.citest_unreachable Sample.fresh_status
              Sample.after_init
              {| Sample.polls := 1; Sample.bound_id := "n/a";
                 Sample.detail_path := "pipelines/1" |}
              (OtherError "connection refused") 200007 eq_refl eq_refl)
    as (Hraise & _ & Htimed & _).
  split; [exact Hraise | exact Htimed].
Defined.

(** X15. Whatever the caller does with a status (polling it, changing its
    timeout, waiting), its start time, its trigger response and its status
    path stay what construction made them; and [refresh] leaves the timeout
    alone, which only its setter changes. *)
Theorem status_keeps_start_and_response
    {D R : Type} (ct : Citest D R) (st : GcsPubsubTriggerOperationStatus D R)
    (w : World) (actions : list action) :
  __start (fst (perform_all ct actions (st, w))) = __start st
  /\ __trigger_response (fst (perform_all ct actions (st, w))) = __trigger_response st
  /\ __status_path (fst (perform_all ct actions (st, w))) = __status_path st
  /\ timeout_delta (fst (fst (refresh ct st w))) = timeout_delta st.
Proof.
  destruct (perform_all_keeps_fields ct actions st w) as (? & ? & ?).
  destruct (refresh_keeps_fields ct st w) as (_ & _ & _ & ?).
  auto.
Qed.

(** X16. [timed_out] is not sticky: on a status that has timed out without
    [finished_ok], a [refresh] with the delegate still pending at which the
    time since the start is within the timeout (the timeout was raised, or
    the clock was set back) puts [timed_out] and [finished] back to false.
    Time equal to the timeout is within it. *)
Theorem timed_out_can_be_withdrawn
    {D R : Type} (ct : Citest D R) (st : GcsPubsubTriggerOperationStatus D R)
    (w : World) (d : D) (now : datetime) :
  timed_out st = true ->
  finished_ok st = false ->
  trigger_refresh ct (__trigger_status st) (clock w) = (d, Ok tt, now) ->
  trigger_finished_ok ct d = false ->
  now - __start st <= timeout_delta st ->
  timed_out (fst (fst (refresh ct st w))) = false
  /\ finished (fst (fst (refresh ct st w))) = false.
Proof.
  intros _ Hfin Hrefresh Hpending Hwithin.
  rewrite (refresh_delegate_pending ct st w d now Hfin Hrefresh Hpending).
  unfold finished, finished_ok, timed_out. simpl.
  replace (now - __start st >? timeout_delta st) with false; [auto|].
  symmetry. rewrite Z.gtb_ltb. apply Z.ltb_ge. exact Hwithin.
Qed.

Lemma timed_out_can_be_withdrawn_witness :
  let polled := perform_all (Sample.citest 9)
                  [DoSetTimeoutDelta (timedelta_of_seconds 1); DoWait 1300000; DoRefresh;
                   DoSetTimeoutDelta 1700000]
                  (Sample.fresh_status, Sample.after_init) in
  timed_out (fst polled) = true
  /\ finished (fst polled) = true
  /\ finished (fst (fst (refresh (Sample.citest 9) (fst polled) (snd polled)))) = false.
Proof.
  intros polled.
  assert (Htimed : timed_out (fst polled) = true) by (vm_compute; reflexivity).
  split; [exact Htimed|]. split; [vm_compute; reflexivity|].
  pose (d := {| Sample.polls := 2; Sample.bound_id := "n/a";
                Sample.detail_path := "pipelines/1" |}).
  assert (Hrefresh : trigger_refresh (Sample.citest 9) (__trigger_status (fst polled))
                       (clock (snd polled)) = (d, Ok tt, 1700007))
    by (vm_compute; reflexivity).
  assert (Hwithin : 1700007 - __start (fst polled) <= timeout_delta (fst polled))
    by (vm_compute; discriminate).
  apply (timed_out_can_be_withdrawn (Sample.citest 9) (fst polled) (snd polled) d 1700007
           Htimed eq_refl Hrefresh eq_refl Hwithin).
Defined.

(** X17. [refresh] never sets [finished_ok] by itself: when [finished_ok]
    is true after a [refresh], it was true before or the delegate, as this
    [refresh] left it, reports [finished_ok]. A timeout does not make a
    status [finished_ok]. *)
Theorem finished_ok_comes_from_delegate
    {D R : Type} (ct : Citest D R) (st : GcsPubsubTriggerOperationStatus D R) (w : World) :
  finished_ok (fst (fst (refresh ct st w))) = true ->
  finished_ok st = true
  \/ trigger_finished_ok ct (__trigger_status (fst (fst (refresh ct st w)))) = true.
Proof.
  unfold refresh, finished_ok.
  destruct (__finished_ok st) eqn:Hfin; [auto|].
  simpl. destruct (trigger_refresh ct _ _) as [[d [[]|e]] t]; simpl.
  - destruct (trigger_finished_ok ct d) eqn:Hdone; simpl; [auto|].
    intros H. discriminate H.
  - intros H. rewrite Hfin in H. discriminate H.
Qed.

Lemma finished_ok_comes_from_delegate_witness :
  finished_ok (fst (fst (refresh (Sample.citest 1) Sample.fresh_status Sample.after_init)))
  = true
  /\ (finished_ok Sample.fresh_status = true
      \/ trigger_finished_ok (Sample.citest 1)
           (__trigger_status
              (fst (fst (refresh (Sample.citest 1) Sample.fresh_status Sample.after_init))))
         = true).
Proof.
  assert (Hdone : finished_ok (fst (fst (refresh (Sample.citest 1) Sample.fresh_status
                                           Sample.after_init))) = true)
    by (vm_compute; reflexivity).
  split; [exact Hdone|].
  apply (finished_ok_comes_from_delegate (Sample.citest 1) Sample.fresh_status
           Sample.after_init Hdone).
Defined.

(** X18. One [refresh] calls the delegate's [refresh] once if [finished_ok]
    was false and not at all if it was true, and reads the clock at most
    once; so over any run of actions the delegate is refreshed at most as
    often as the caller called [refresh]. *)
Theorem refresh_polls_delegate_once
    {D R : Type} (ct : Citest D R) (st : GcsPubsubTriggerOperationStatus D R)
    (w : World) (actions : list action) :
  times_issued TriggerRefresh (history (snd (refresh ct st w)))
  = (times_issued TriggerRefresh (history w) + (if finished_ok st then 0 else 1))%nat
  /\ (times_issued Utcnow (history (snd (refresh ct st w)))
      <= times_issued Utcnow (history w) + 1)%nat
  /\ (times_issued TriggerRefresh (history (snd (perform_all ct actions (st, w))))
      <= times_issued TriggerRefresh (history w)
         + length (filter (fun a => is_refresh a = true) actions))%nat.
Proof.
  destruct (refresh_issues ct st w) as [Hpoll Hclock].
  pose proof (perform_all_issues ct actions st w). auto.
Qed.

(** X19. When the lookup of the status path raises, construction raises the
    same error and gives no status object; the lookup was issued once and
    the clock was not read. *)
Theorem init_passes_lookup_error
    {D R : Type} (ct : Citest D R) (status_path : string) (w : World)
    (e : exn) (t : datetime) :
  gate_get ct status_path (clock w) = (Raise e, t) ->
  fst (GcsPubsubTriggerOperationStatus_init ct status_path w) = Raise e
  /\ history (snd (GcsPubsubTriggerOperationStatus_init ct status_path w))
     = history w ++ [(clock w, BindAgent); (clock w, SuperInit); (clock w, StatusClass);
                     (clock w, BindId "n/a"); (clock w, BindDetailPath status_path);
                     (clock w, Get status_path)].
Proof.
  intros Hget. unfold GcsPubsubTriggerOperationStatus_init. simpl.
  rewrite Hget. simpl. rewrite <- !app_assoc. auto.
Qed.

Lemma init_passes_lookup_error_witness :
  fst (GcsPubsubTriggerOperationStatus_init Sample.citest_unreachable "pipelines/1"
         Sample.epoch)
  = Raise (OtherError "connection refused").
Proof.
  apply (init_passes_lookup_error Sample.citest_unreachable "pipelines/1" Sample.epoch
           (OtherError "connection refused") 7 eq_refl).
Defined.

(** X20. [_do_execute] uploads first. When the upload raises, the error is
    passed on and nothing else is called: no status object is built and the
    status path is not looked up. When the upload returns, the status
    object is built at the clock reading at which the upload was over, so
    the lookup is issued then and the start time is read after it. *)
Theorem execute_uploads_first
    {D R : Type} (ct : Citest D R)
    (bucket_name upload_path local_filename status_path : string) (w : World) :
  (forall e t,
      upload_file ct bucket_name upload_path local_filename (clock w) = (Raise e, t) ->
      fst (_do_execute ct bucket_name upload_path local_filename status_path w) = Raise e
      /\ history (snd (_do_execute ct bucket_name upload_path local_filename status_path w))
         = history w ++ [(clock w, UploadFile bucket_name upload_path local_filename)])
  /\ (forall uploaded response started,
      upload_file ct bucket_name upload_path local_filename (clock w) = (Ok tt, uploaded) ->
      gate_get ct status_path uploaded = (Ok response, started) ->
      exists st,
        fst (_do_execute ct bucket_name upload_path local_filename status_path w) = Ok st
        /\ __start st = started
        /\ __trigger_response st = response
        /\ history (snd (_do_execute ct bucket_name upload_path local_filename
                           status_path w))
           = history w
             ++ [(clock w, UploadFile bucket_name upload_path local_filename);
                 (uploaded, BindAgent); (uploaded, SuperInit); (uploaded, StatusClass);
                 (uploaded, BindId "n/a"); (uploaded, BindDetailPath status_path);
                 (uploaded, Get status_path); (started, Utcnow)]).
Proof.
  split.
  - intros e t Hupload.
    rewrite (_do_execute_upload_raises ct _ _ _ _ _ _ _ Hupload). auto.
  - intros uploaded response started Hupload Hget.
    rewrite (_do_execute_uploaded ct _ _ _ status_path _ _ Hupload).
    unfold GcsPubsubTriggerOperationStatus_init. simpl.
    rewrite Hget. simpl. eexists. split; [reflexivity|]. simpl.
    rewrite <- !app_assoc. auto.
Qed.

Lemma _do_execute_uploads_first_witness :
  fst (_do_execute Sample.citest_unreachable "bucket" "triggers/file.txt" "/tmp/file.txt"
         "pipelines/1" Sample.epoch)
  = Raise (OtherError "403 Forbidden")
  /\ exists st,
      fst (_do_execute (Sample.citest 1) "bucket" "triggers/file.txt" "/tmp/file.txt"
             "pipelines/1" Sample.epoch) = Ok st
      /\ __start st = 30007.
Proof.
  split.
  - apply (proj1 (execute_uploads_first Sample.citest_unreachable "bucket"
                    "triggers/file.txt" "/tmp/file.txt" "pipelines/1" Sample.epoch)
             (OtherError "403 Forbidden") 30000 eq_refl).
  - destruct (proj2 (execute_uploads_first (Sample.citest 1) "bucket"
                       "triggers/file.txt" "/tmp/file.txt" "pipelines/1" Sample.epoch)
                30000 "200 OK pipelines/1" 30007 eq_refl eq_refl)
      as (st & Hst & Hstart & _).
    exists st. split; [exact Hst | exact Hstart].
Defined.
